(** * Copilot MCP Bridge: the request/response reliability layer

    A shallow embedding of [src/mcpService.ts] (class [McpService]), of the
    chat participant (class [CopilotChatParticipant]) and of the declarations
    of [types.ts] they use, with the properties of the transport client and
    of the orchestrator stated over them.

    Conventions.
    - A JS string is a [string] (its UTF-8 bytes); a JS number that the code
      uses as an integer is a [Z].
    - A [Promise] that settles is an [Outcome]: [Fulfilled v] for a value
      returned, [Rejected e] for an exception thrown.
    - The logger is a pure observer ([Logger] in [types.ts]); its calls are
      left out.
    - The HTTP libraries ([axios], [fetch]), [Buffer] and the editor host are
      collaborators outside the repository: they appear as the small
      contracts of section [Collaborators]. *)

From Stdlib Require Import Ascii String ZArith Lia.
From Equations Require Import Equations.
From stdpp Require Import gmap strings list pretty.

Local Open Scope string_scope.
Local Open Scope Z_scope.
Local Open Scope list_scope.

(** ** types.ts

    The constructors of the three enumerations below stand for the string
    literals of the union types. *)

Inductive AuthType := none | bearer | api_key | basic.
Inductive HttpLibrary := fetch | axios.
Inductive LogLevel := LogDebug | LogInfo | LogWarn | LogError.

Record McpServerConfig := {
  endpoint : string;
  timeout : Z;
  retries : Z }.

Record AuthenticationConfig := {
  type : AuthType;
  token : string;
  headerName : string }.

Record HttpClientConfig := {
  library : HttpLibrary;
  userAgent : string }.

Record FeatureConfig := {
  enabled : bool;
  includeWorkspaceContext : bool;
  includeActiveFile : bool }.

Record LoggingConfig := {
  level : LogLevel;
  enableTelemetry : bool }.

Record ExtensionConfig := {
  mcpServer : McpServerConfig;
  authentication : AuthenticationConfig;
  httpClient : HttpClientConfig;
  features : FeatureConfig;
  logging : LoggingConfig }.

Record ActiveFile := {
  path : string;
  language : string;
  content : option string }.

(** [vscode.Position] is a line and a character. *)
Record Selection := {
  start : Z * Z;
  end_ : Z * Z;
  text : string }.

Record RequestContext := {
  workspaceRoot : option string;
  activeFile : option ActiveFile;
  selection : option Selection;
  openFiles : option (list string) }.

Record RequestMetadata := {
  extensionVersion : string;
  vscodeVersion : string;
  copilotVersion : option string }.

Record McpRequest := {
  prompt : string;
  sessionId : string;
  userId : string;
  timestamp : Z;
  context : RequestContext;
  metadata : RequestMetadata }.

(** [data.metadata] is a [Record<string, any>] that the code only prints:
    it is kept as its [JSON.stringify(_, null, 2)] rendering. *)
Record McpData := {
  enhancedPrompt : option string;
  additionalContext : option string;
  suggestions : option (list string);
  dataMetadata : option string }.

Record McpErrorBody := {
  code : string;
  message : string }.

Record McpResponse := {
  success : bool;
  data : option McpData;
  error_ : option McpErrorBody }.

Record ChatSession := {
  id : string;
  sessionUserId : string;
  startTime : Z;
  lastActivity : Z;
  messageCount : Z }.

Inductive McpErrorType :=
  | CONNECTION_ERROR
  | AUTHENTICATION_ERROR
  | TIMEOUT_ERROR
  | INVALID_RESPONSE
  | RATE_LIMITED
  | SERVER_ERROR
  | CONFIGURATION_ERROR.

(** The exceptions the code throws, catches and inspects: [McpError] of
    [types.ts], the [AxiosError] of axios ([code], [message],
    [response?.status]) and any other [Error] with its [name] and [message]. *)
Inductive JsError :=
  | McpError (errType : McpErrorType) (msg : string)
  | AxiosError (errCode : option string) (msg : string) (status : option Z)
  | PlainError (name : string) (msg : string).

(** [error.message] *)
Definition messageOf (e : JsError) : string :=
  match e with
  | McpError _ m | AxiosError _ m _ | PlainError _ m => m
  end.

(** [error.type]: only an [McpError] has one. *)
Definition typeOf (e : JsError) : option McpErrorType :=
  match e with
  | McpError t _ => Some t
  | _ => None
  end.

(** [error.code] and [error.response?.status]: only an [AxiosError] has them. *)
Definition codeOf (e : JsError) : option string :=
  match e with
  | AxiosError c _ _ => c
  | _ => None
  end.

Definition responseStatusOf (e : JsError) : option Z :=
  match e with
  | AxiosError _ _ s => s
  | _ => None
  end.

(** [error instanceof McpError] *)
Definition instanceofMcpError (e : JsError) : bool :=
  match e with McpError _ _ => true | _ => false end.

(** [axios.isAxiosError(error)] *)
Definition isAxiosError (e : JsError) : bool :=
  match e with AxiosError _ _ _ => true | _ => false end.

Inductive Outcome (A : Type) :=
  | Fulfilled (v : A)
  | Rejected (e : JsError).
Arguments Fulfilled {A} v.
Arguments Rejected {A} e.

(** ** JS primitives *)

(** A string is truthy when it is not empty. *)
Definition truthy (s : string) : bool :=
  match s with "" => false | _ => true end.

(** [a || b] on strings that may be [undefined]. *)
Definition orElse (a : option string) (b : string) : string :=
  match a with
  | Some s => if truthy s then s else b
  | None => b
  end.

(** [s.includes(needle)] *)
Definition includes (needle s : string) : bool :=
  match String.index 0 needle s with Some _ => true | None => false end.

(** The line feed that [\n] denotes in a JS string literal. *)
Definition nl : string := String (ascii_of_nat 10) "".

(** The double quote character, for messages that contain one. *)
Definition doubleQuote : string := String (ascii_of_nat 34) "".

(** A number in a template literal, [`${n}`], for an integer [n]. *)
Definition numberToString (n : Z) : string := pretty n.

(** [Math.pow(2, n)] for an integer [n >= 0] (the only use in the code). *)
Definition pow2 (n : Z) : Z := 2 ^ n.

(** ** Collaborators *)

Section Collaborators.

(** [Buffer.from(s).toString('base64')]: RFC 4648 base64 with padding. *)
Definition b64_alphabet : string :=
  "ABCDEFGHIJKLMNOPQRSTUVWXYZabcdefghijklmnopqrstuvwxyz0123456789+/".

Definition b64_digit (n : N) : ascii :=
  match String.get (N.to_nat n) b64_alphabet with
  | Some c => c
  | None => "="%char
  end.

Definition b64_quad (a b c : N) (pad : nat) : string :=
  let n := (a * 65536 + b * 256 + c)%N in
  let d1 := b64_digit (n / 262144) in
  let d2 := b64_digit ((n / 4096) mod 64) in
  let d3 := b64_digit ((n / 64) mod 64) in
  let d4 := b64_digit (n mod 64) in
  match pad with
  | O => String d1 (String d2 (String d3 (String d4 "")))
  | S O => String d1 (String d2 (String d3 "="))
  | _ => String d1 (String d2 "==")
  end.

Fixpoint base64_bytes (l : list N) : string :=
  match l with
  | [] => ""
  | [a] => b64_quad a 0 0 2
  | [a; b] => b64_quad a b 0 1
  | a :: b :: c :: rest => b64_quad a b c 0 +:+ base64_bytes rest
  end.

Definition base64 (s : string) : string :=
  base64_bytes (map N_of_ascii (list_ascii_of_string s)).

(** One HTTP exchange with the endpoint, as the network decides it. *)
Inductive Body :=
  | Json (r : McpResponse)
  | NotJson (parseError : string).

Inductive Wire :=
  | Reply (status : Z) (statusText : string) (body : Body)
  | Refused                        (* connect ECONNREFUSED *)
  | NotFound                       (* getaddrinfo ENOTFOUND *)
  | Broken (reason : string)       (* any other network failure *)
  | LibraryThrew (name reason : string).  (* an exception that is not a transport one *)

(** An attempt: what the wire would deliver, whether the configured
    timeout elapses first, whether [cancelRequests()] runs while the call
    is in flight, and how long the attempt lasts on the clock. *)
Record Attempt := {
  wire : Wire;
  timedOut : bool;
  cancelledInFlight : bool;
  took : Z }.

(** A body that is not JSON reaches the caller of axios as a string: none
    of [success], [data], [error] is defined on it. *)
Definition notAnObject : McpResponse :=
  {| success := false; data := None; error_ := None |}.

(** axios: resolves with [response.data] when [validateStatus] accepts
    the status, and rejects with an [AxiosError] otherwise; [code] is the
    system error code, and [ECONNABORTED] for its own timeout. *)
Definition axiosCall (validateStatus : Z → bool) (timeout : Z) (a : Attempt)
  : Outcome McpResponse :=
  if timedOut a then
    Rejected (AxiosError (Some "ECONNABORTED")
                ("timeout of " +:+ numberToString timeout +:+ "ms exceeded") None)
  else
    match wire a with
    | Reply status _ body =>
        if validateStatus status then
          Fulfilled (match body with Json r => r | NotJson _ => notAnObject end)
        else
          Rejected (AxiosError
                      (Some (if status <? 500 then "ERR_BAD_REQUEST" else "ERR_BAD_RESPONSE"))
                      ("Request failed with status code " +:+ numberToString status)
                      (Some status))
    | Refused => Rejected (AxiosError (Some "ECONNREFUSED") "connect ECONNREFUSED" None)
    | NotFound => Rejected (AxiosError (Some "ENOTFOUND") "getaddrinfo ENOTFOUND" None)
    | Broken reason => Rejected (AxiosError (Some "ERR_NETWORK") reason None)
    | LibraryThrew name reason => Rejected (PlainError name reason)
    end.

(** fetch: rejects with an [AbortError] when its signal is aborted, with a
    [TypeError] on a network failure, and resolves with a [Response] for
    every status; [response.json()] rejects with a [SyntaxError] on a body
    that is not JSON. *)
Record FetchResponse := {
  ok : bool;
  responseStatus : Z;
  statusText : string;
  json : Outcome McpResponse }.

Definition fetchCall (signalAborted : bool) (a : Attempt) : Outcome FetchResponse :=
  if signalAborted then
    Rejected (PlainError "AbortError" "This operation was aborted")
  else
    match wire a with
    | Reply status text body =>
        Fulfilled {| ok := (200 <=? status) && (status <? 300);
                     responseStatus := status;
                     statusText := text;
                     json := match body with
                             | Json r => Fulfilled r
                             | NotJson m => Rejected (PlainError "SyntaxError" m)
                             end |}
    | Refused | NotFound | Broken _ => Rejected (PlainError "TypeError" "fetch failed")
    | LibraryThrew name reason => Rejected (PlainError name reason)
    end.

(** Why the signal of a fetch in flight was aborted, as the environment
    knows it; the [AbortError] itself does not say. *)
Inductive AbortCause := TimeoutElapsed | ExternalCancel.

Definition abortCause (a : Attempt) : option AbortCause :=
  if cancelledInFlight a then Some ExternalCancel
  else if timedOut a then Some TimeoutElapsed
  else None.

(** The editor host: [vscode.version], the [packageJSON.version] of the
    two extensions, [process.env], the workspace and the active editor. *)
Record TextDocument := {
  isUntitled : bool;
  fsPath : string }.

Record TextEditor := {
  document : TextDocument;
  languageId : string;
  documentText : string;
  editorSelection : option Selection }.  (* [None] when [selection.isEmpty] *)

Record Host := {
  hostVersion : string;
  bridgePackageVersion : option string;
  copilotPackageVersion : option string;
  envUSERNAME : option string;
  envUSER : option string;
  workspaceFolder : option string;
  textDocuments : list TextDocument;
  activeTextEditor : option TextEditor }.

End Collaborators.

Global Instance AuthType_eq_dec : EqDecision AuthType.
Proof. solve_decision. Defined.

Global Instance HttpLibrary_eq_dec : EqDecision HttpLibrary.
Proof. solve_decision. Defined.

Global Instance LogLevel_eq_dec : EqDecision LogLevel.
Proof. solve_decision. Defined.

Global Instance McpErrorType_eq_dec : EqDecision McpErrorType.
Proof. solve_decision. Defined.

(** [error.name] *)
Definition nameOf (e : JsError) : string :=
  match e with
  | McpError _ _ => "McpError"
  | AxiosError _ _ _ => "AxiosError"
  | PlainError n _ => n
  end.

(** ** The world a request runs in

    The clock that [Date.now()] reads, the number of HTTP calls made so far,
    and the calls and waits performed, oldest first.  A call records the
    request it serialises with [JSON.stringify]. *)
Inductive Effect :=
  | Dispatched (at_ : Z) (lib : HttpLibrary) (url : string)
      (headers : gmap string string) (timeoutMs : Z) (body : McpRequest)
  | Slept (at_ : Z) (ms : Z).

Record World := {
  now : Z;
  calls : nat;
  effects : list Effect }.

(** ** src/mcpService.ts *)

Module McpService.
Section Service.

Variable config : ExtensionConfig.   (* [this.config] *)
Variable host : Host.
Variable net : nat → Attempt.        (* the n-th HTTP call of the run *)

Definition getExtensionVersion : string :=
  orElse (bridgePackageVersion host) "unknown".

(** The object literal [buildHeaders] starts from. *)
Definition fixedHeaders : gmap string string :=
  <["X-Extension-Version" := getExtensionVersion]>
    (<["X-VS-Code-Version" := hostVersion host]>
      (<["User-Agent" := userAgent (httpClient config)]>
        {["Content-Type" := "application/json"]})).

Definition buildHeaders : gmap string string :=
  let headers := fixedHeaders in
  let auth := authentication config in
  if bool_decide (type auth ≠ none) && truthy (token auth) then
    match type auth with
    | bearer => <[headerName auth := "Bearer " +:+ token auth]> headers
    | api_key => <[headerName auth := token auth]> headers
    | basic => <[headerName auth := "Basic " +:+ base64 (token auth)]> headers
    | none => headers
    end
  else headers.

(** The [details] of the [McpError] that the last branch builds are not
    kept. *)
Definition handleAxiosError (error : JsError) : JsError :=
  if bool_decide (codeOf error = Some "ECONNREFUSED")
     || bool_decide (codeOf error = Some "ENOTFOUND") then
    McpError CONNECTION_ERROR "Unable to connect to MCP server"
  else if bool_decide (codeOf error = Some "ECONNABORTED") then
    McpError TIMEOUT_ERROR "Request timed out"
  else if bool_decide (responseStatusOf error = Some 401)
          || bool_decide (responseStatusOf error = Some 403) then
    McpError AUTHENTICATION_ERROR "Authentication failed"
  else if bool_decide (responseStatusOf error = Some 429) then
    McpError RATE_LIMITED "Rate limit exceeded"
  else
    McpError SERVER_ERROR (messageOf error).

Definition handleError (error : JsError) : JsError :=
  if instanceofMcpError error then error
  else if includes "fetch" (messageOf error) then
    McpError CONNECTION_ERROR "Network request failed"
  else
    McpError SERVER_ERROR (messageOf error).

Definition makeAxiosRequest (timeoutMs : Z) (a : Attempt) : Outcome McpResponse :=
  match axiosCall (λ status, (200 <=? status) && (status <? 300)) timeoutMs a with
  | Fulfilled responseData => Fulfilled responseData
  | Rejected error =>
      if isAxiosError error then Rejected (handleAxiosError error)
      else Rejected error
  end.

(** The [catch] block of [makeFetchRequest]. *)
Definition fetchCatch (error : JsError) : Outcome McpResponse :=
  if bool_decide (nameOf error = "AbortError") then
    Rejected (McpError TIMEOUT_ERROR "Request timed out")
  else
    Rejected error.

(** The signal handed to [fetch] is the one of [this.abortController]: it
    is aborted by the timer armed with [options.timeout], and by
    [cancelRequests()]. *)
Definition makeFetchRequest (a : Attempt) : Outcome McpResponse :=
  let signalAborted := timedOut a || cancelledInFlight a in
  match fetchCall signalAborted a with
  | Fulfilled response =>
      if negb (ok response) then
        fetchCatch (McpError SERVER_ERROR
                      ("HTTP " +:+ numberToString (responseStatus response)
                         +:+ ": " +:+ statusText response))
      else
        match json response with
        | Fulfilled responseData => Fulfilled responseData
        | Rejected error => fetchCatch error
        end
  | Rejected error => fetchCatch error
  end.

Definition makeHttpRequest (mcpRequest : McpRequest) (w : World)
  : Outcome McpResponse * World :=
  let a := net (calls w) in
  let timeoutMs := timeout (mcpServer config) in
  let w' := {| now := now w + took a;
               calls := S (calls w);
               effects := effects w ++
                 [Dispatched (now w) (library (httpClient config))
                    (endpoint (mcpServer config)) buildHeaders timeoutMs mcpRequest] |} in
  (if bool_decide (library (httpClient config) = axios)
   then makeAxiosRequest timeoutMs a
   else makeFetchRequest a, w').

Definition delay (ms : Z) (w : World) : World :=
  {| now := now w + ms; calls := calls w; effects := effects w ++ [Slept (now w) ms] |}.

(** [throw this.handleError(lastError!)]: when the loop body never ran,
    [lastError] is [undefined] and reading [error.message] raises. *)
Definition throwLastError (lastError : option JsError) : JsError :=
  match lastError with
  | Some error => handleError error
  | None => PlainError "TypeError"
              "Cannot read properties of undefined (reading 'message')"
  end.

Definition backoff (attempt : Z) : Z :=
  Z.min (1000 * pow2 (attempt - 1)) 10000.

(** The [while (attempt <= retries)] loop of [sendMcpRequest]. *)
Equations? retryLoop (mcpRequest : McpRequest) (attempt : Z)
    (lastError : option JsError) (w : World)
  : Outcome McpResponse * World
  by wf (Z.to_nat (retries (mcpServer config) + 1 - attempt)) lt :=
  retryLoop mcpRequest attempt lastError w
    with decide (attempt <= retries (mcpServer config)) => {
    | left _ with makeHttpRequest mcpRequest w => {
        | (Fulfilled response, w1) := (Fulfilled response, w1);
        | (Rejected error, w1) :=
            retryLoop mcpRequest (attempt + 1) (Some error)
              (if attempt + 1 <=? retries (mcpServer config)
               then delay (backoff (attempt + 1)) w1
               else w1) };
    | right _ := (Rejected (throwLastError lastError), w) }.
Proof. lia. Qed.

Definition sendMcpRequest (mcpRequest : McpRequest) (w : World)
  : Outcome McpResponse * World :=
  if negb (enabled (features config)) then
    (Fulfilled {| success := true;
                  data := Some {| enhancedPrompt := Some (prompt mcpRequest);
                                  additionalContext := None;
                                  suggestions := None;
                                  dataMetadata := None |};
                  error_ := None |}, w)
  else
    retryLoop mcpRequest 0 None w.

End Service.
End McpService.

(** ** The chat participant *)

(** What [stream.progress] and [stream.markdown] write to the chat. *)
Inductive Segment :=
  | Progress (value : string)
  | Markdown (value : string).

(** One chat turn as the host hands it over: [request.prompt],
    [context.history.length], the value [Math.random()] yields in base 36,
    and what [token.isCancellationRequested] reads before the request is
    sent and after it has returned. *)
Record ChatTurn := {
  requestPrompt : string;
  historyLength : nat;
  randomSuffix : string;
  cancelledBeforeSend : bool;
  cancelledAfterSend : bool }.

Record TurnResult := {
  sessionsAfter : gmap string ChatSession;
  worldAfter : World;
  stream : list Segment }.

(** The two pictographs of the messages, as the bytes of the source file. *)
Definition crossMark : string := "‚ùå".
Definition bullet : string := "‚Ä¢".

Module CopilotChatParticipant.
Section Participant.

Variable config : ExtensionConfig.   (* [this.config], also the service's *)
Variable host : Host.
Variable net : nat → Attempt.

Definition getCurrentUserId : string :=
  "user-" +:+ orElse (envUSERNAME host) (orElse (envUSER host) "unknown").

Definition getExtensionVersion : string :=
  orElse (bridgePackageVersion host) "unknown".

Definition getCopilotVersion : option string :=
  copilotPackageVersion host.

Definition getOrCreateSession (sessions : gmap string ChatSession)
    (turn : ChatTurn) (w : World) : ChatSession * gmap string ChatSession :=
  let sessionId :=
    if (0 <? historyLength turn)%nat
    then "session-" +:+ numberToString (now w)
    else "session-" +:+ randomSuffix turn in
  match sessions !! sessionId with
  | Some session => (session, sessions)
  | None =>
      let session := {| id := sessionId;
                        sessionUserId := getCurrentUserId;
                        startTime := now w;
                        lastActivity := now w;
                        messageCount := 0 |} in
      (session, <[sessionId := session]> sessions)
  end.

Definition buildMcpRequest (turn : ChatTurn) (session : ChatSession) (w : World)
  : McpRequest :=
  let activeEditor := activeTextEditor host in
  let workspaceFolder := workspaceFolder host in
  let workspacePart :=
    match includeWorkspaceContext (features config), workspaceFolder with
    | true, Some root =>
        (Some root,
         Some (map fsPath (filter (λ doc, isUntitled doc = false) (textDocuments host))))
    | _, _ => (None, None)
    end in
  let editorPart :=
    match includeActiveFile (features config), activeEditor with
    | true, Some editor =>
        (Some {| path := fsPath (document editor);
                 language := languageId editor;
                 content := Some (documentText editor) |},
         editorSelection editor)
    | _, _ => (None, None)
    end in
  {| prompt := requestPrompt turn;
     sessionId := id session;
     userId := sessionUserId session;
     timestamp := now w;
     context := {| workspaceRoot := fst workspacePart;
                   activeFile := fst editorPart;
                   selection := snd editorPart;
                   openFiles := snd workspacePart |};
     metadata := {| extensionVersion := getExtensionVersion;
                    vscodeVersion := hostVersion host;
                    copilotVersion := getCopilotVersion |} |}.

(** [handleMcpResponse] throws before it writes anything, so its result is
    either the exception or the segments written. *)
Definition handleMcpResponse (mcpResponse : McpResponse) (originalPrompt : string)
  : Outcome (list Segment) :=
  if negb (success mcpResponse) then
    Rejected (McpError SERVER_ERROR
                (orElse (message <$> error_ mcpResponse)
                   "MCP server returned unsuccessful response"))
  else
    match data mcpResponse with
    | None => Fulfilled [Markdown ("**Enhanced Prompt:** " +:+ originalPrompt)]
    | Some d =>
        Fulfilled
          ((match enhancedPrompt d with
            | Some e =>
                if truthy e && negb (String.eqb e originalPrompt)
                then [Markdown ("**Enhanced Prompt:** " +:+ e +:+ nl +:+ nl)]
                else []
            | None => []
            end)
           ++ (match additionalContext d with
               | Some c =>
                   if truthy c
                   then [Markdown ("**Additional Context:**" +:+ nl +:+ c +:+ nl +:+ nl)]
                   else []
               | None => []
               end)
           ++ (match suggestions d with
               | Some l =>
                   if (0 <? length l)%nat
                   then Markdown ("**Suggestions:**" +:+ nl)
                          :: map (λ suggestion, Markdown (bullet +:+ " " +:+ suggestion +:+ nl)) l
                          ++ [Markdown nl]
                   else []
               | None => []
               end)
           ++ (match dataMetadata d with
               | Some m =>
                   if bool_decide (level (logging config) = LogDebug)
                   then [Markdown ("**Debug Info:**" +:+ nl +:+ "```json" +:+ nl +:+ m
                                     +:+ nl +:+ "```" +:+ nl)]
                   else []
               | None => []
               end))%list
    end.

(** The sentence the [switch] of [handleMcpError] selects. *)
Definition errorSentence (error : JsError) : string :=
  match typeOf error with
  | Some CONNECTION_ERROR =>
      "Unable to connect to MCP server. Please check your configuration."
  | Some AUTHENTICATION_ERROR =>
      "Authentication failed. Please check your API credentials."
  | Some TIMEOUT_ERROR =>
      "Request timed out. The MCP server may be overloaded."
  | Some RATE_LIMITED =>
      "Rate limit exceeded. Please wait before making another request."
  | _ => "Error: " +:+ messageOf error
  end.

Definition handleMcpError (error : JsError) (originalPrompt : string) : list Segment :=
  let errorMessage := crossMark +:+ " **MCP Enhancement Failed**" +:+ nl +:+ nl in
  let errorMessage := errorMessage +:+ errorSentence error in
  let errorMessage := errorMessage +:+ nl +:+ nl
                        +:+ "**Fallback:** Using original prompt without enhancement."
                        +:+ nl +:+ nl in
  let errorMessage := errorMessage +:+ "**Original Prompt:** " +:+ originalPrompt in
  [Markdown errorMessage].

(** [session.lastActivity = Date.now(); session.messageCount++] on the
    session object the map holds. *)
Definition touchSession (session : ChatSession) (w : World)
    (sessions : gmap string ChatSession) : gmap string ChatSession :=
  <[id session := {| id := id session;
                     sessionUserId := sessionUserId session;
                     startTime := startTime session;
                     lastActivity := now w;
                     messageCount := messageCount session + 1 |}]> sessions.

(** Nothing in the body raises outside the inner [try], so the outer
    [catch] has no case here. *)
Definition handleChatRequest (sessions : gmap string ChatSession)
    (turn : ChatTurn) (w : World) : TurnResult :=
  if negb (enabled (features config)) then
    {| sessionsAfter := sessions;
       worldAfter := w;
       stream := [Markdown ("**Original prompt:** " +:+ requestPrompt turn +:+ nl +:+ nl
                              +:+ "*Note: MCP integration is currently disabled.*")] |}
  else
    let '(session, sessions1) := getOrCreateSession sessions turn w in
    let shown := [Progress "Enhancing prompt with MCP server..."] in
    let mcpRequest := buildMcpRequest turn session w in
    if cancelledBeforeSend turn then
      {| sessionsAfter := sessions1; worldAfter := w; stream := shown |}
    else
      match McpService.sendMcpRequest config host net mcpRequest w with
      | (Fulfilled mcpResponse, w1) =>
          if cancelledAfterSend turn then
            {| sessionsAfter := sessions1; worldAfter := w1; stream := shown |}
          else
            match handleMcpResponse mcpResponse (requestPrompt turn) with
            | Fulfilled written =>
                {| sessionsAfter := touchSession session w1 sessions1;
                   worldAfter := w1;
                   stream := shown ++ written |}
            | Rejected error =>
                {| sessionsAfter := sessions1;
                   worldAfter := w1;
                   stream := shown ++ handleMcpError error (requestPrompt turn) |}
            end
      | (Rejected error, w1) =>
          {| sessionsAfter := sessions1;
             worldAfter := w1;
             stream := shown ++ handleMcpError error (requestPrompt turn) |}
      end.

End Participant.
End CopilotChatParticipant.

(** ** The rest of the service and of the participant *)

(** What [testConnection()] resolves with. *)
Record ConnectionResult := {
  connectionSuccess : bool;
  connectionMessage : string;
  latency : option Z }.

(** The request [testConnection()] builds. *)
Definition testRequest (host : Host) (w : World) : McpRequest :=
  {| prompt := "__TEST_CONNECTION__";
     sessionId := "test";
     userId := "test";
     timestamp := now w;
     context := {| workspaceRoot := None; activeFile := None;
                   selection := None; openFiles := None |};
     metadata := {| extensionVersion := McpService.getExtensionVersion host;
                    vscodeVersion := hostVersion host;
                    copilotVersion := None |} |}.

Definition testConnection (config : ExtensionConfig) (host : Host) (net : nat → Attempt)
    (w : World) : ConnectionResult * World :=
  let startTime := now w in
  match McpService.sendMcpRequest config host net (testRequest host w) w with
  | (Fulfilled _, w1) =>
      let latency := now w1 - startTime in
      ({| connectionSuccess := true;
          connectionMessage := "Connection successful";
          latency := Some latency |}, w1)
  | (Rejected error, w1) =>
      let mcpError := if instanceofMcpError error then error
                      else McpService.handleError error in
      ({| connectionSuccess := false;
          connectionMessage := "Connection failed: " +:+ messageOf mcpError;
          latency := None |}, w1)
  end.

(** What [testMcpConnection] of [extension.ts] shows to the user. *)
Inductive Notification :=
  | InformationMessage (message : string)
  | ErrorMessage (message : string).

Definition testMcpConnection (config : ExtensionConfig) (host : Host) (net : nat → Attempt)
    (w : World) : Notification * World :=
  let '(result, w1) := testConnection config host net w in
  (if connectionSuccess result then
     InformationMessage ("✅ Connection successful! Latency: "
                           +:+ match latency result with
                               | Some l => numberToString l
                               | None => "undefined"
                               end
                           +:+ "ms")
   else
     ErrorMessage ("❌ Connection failed: " +:+ connectionMessage result), w1).

(** [cleanupSessions()]: the loop over the entries of the map, deleting as
    it goes. *)
Definition maxAge : Z := 24 * 60 * 60 * 1000.

Definition cleanupSessions (sessions : gmap string ChatSession) (w : World)
  : gmap string ChatSession :=
  map_fold (λ sessionId session (remaining : gmap string ChatSession),
              if bool_decide (now w - lastActivity session > maxAge)
              then delete sessionId remaining
              else remaining)
           sessions sessions.

Definition getActiveSessionCount (sessions : gmap string ChatSession) : nat :=
  size sessions.

(** The map holds each session under its own [id]. *)
Definition keyedById (sessions : gmap string ChatSession) : Prop :=
  ∀ k session, sessions !! k = Some session → id session = k.

(** ** src/logger.ts *)

Module ExtensionLogger.

(** The output channel and the console, oldest line first. *)
Record LoggerState := {
  loggerConfig : LoggingConfig;
  outputChannel : list string;
  console : list string }.

(** [Array.prototype.indexOf], with [-1] for an element that is absent. *)
Fixpoint indexOfFrom (i : Z) (x : LogLevel) (l : list LogLevel) : Z :=
  match l with
  | [] => -1
  | y :: l' => if bool_decide (y = x) then i else indexOfFrom (i + 1) x l'
  end.

Definition indexOf (l : list LogLevel) (x : LogLevel) : Z := indexOfFrom 0 x l.

Definition shouldLog (st : LoggerState) (messageLevel : LogLevel) : bool :=
  let levels := [LogDebug; LogInfo; LogWarn; LogError] in
  let currentLevelIndex := indexOf levels (level (loggerConfig st)) in
  let messageLevelIndex := indexOf levels messageLevel in
  messageLevelIndex >=? currentLevelIndex.

Section Logger.

(** [new Date().toISOString()], as the host gives it. *)
Variable isoNow : string.

(** [args] is [None] when the rest parameter is empty, and its
    [JSON.stringify] rendering otherwise. *)
Definition writeLog (levelName message : string) (args : option string)
    (st : LoggerState) : LoggerState :=
  let timestamp := isoNow in
  let formattedArgs := match args with
                       | Some rendered => " | Data: " +:+ rendered
                       | None => ""
                       end in
  let logMessage := "[" +:+ timestamp +:+ "] " +:+ levelName +:+ ": " +:+ message
                      +:+ formattedArgs in
  {| loggerConfig := loggerConfig st;
     outputChannel := outputChannel st ++ [logMessage];
     console := if bool_decide (level (loggerConfig st) = LogDebug)
                then console st ++ ["[Copilot MCP Bridge] " +:+ logMessage]
                else console st |}.

Definition debug (message : string) (args : option string) (st : LoggerState)
  : LoggerState :=
  if shouldLog st LogDebug then writeLog "DEBUG" message args st else st.

Definition info (message : string) (args : option string) (st : LoggerState)
  : LoggerState :=
  if shouldLog st LogInfo then writeLog "INFO" message args st else st.

Definition warn (message : string) (args : option string) (st : LoggerState)
  : LoggerState :=
  if shouldLog st LogWarn then writeLog "WARN" message args st else st.

(** [thrown] is the optional [Error]: its message and its stack, if any. *)
Definition error (message : string) (thrown : option (string * option string))
    (args : option string) (st : LoggerState) : LoggerState :=
  if shouldLog st LogError then
    let errorDetails :=
      match thrown with
      | Some (errorMessage, stack) =>
          " | Error: " +:+ errorMessage
            +:+ match stack with
                | Some trace =>
                    if truthy trace && bool_decide (level (loggerConfig st) = LogDebug)
                    then " | Stack: " +:+ trace
                    else ""
                | None => ""
                end
      | None => ""
      end in
    writeLog "ERROR" (message +:+ errorDetails) args st
  else st.

(** [telemetryData] is the rendering of the one argument passed on to
    [debug]. *)
Definition logTelemetry (telemetryData : string) (st : LoggerState) : LoggerState :=
  if negb (enableTelemetry (loggerConfig st)) then st
  else debug "Telemetry event recorded" (Some telemetryData) st.

Definition logMcpCommunication (direction : string) (data : string) (duration : option Z)
    (st : LoggerState) : LoggerState :=
  if bool_decide (level (loggerConfig st) = LogDebug) then
    let durationText := match duration with
                        | Some d => if bool_decide (d = 0) then ""
                                    else " (" +:+ numberToString d +:+ "ms)"
                        | None => ""
                        end in
    debug ("MCP " +:+ direction +:+ durationText) (Some data) st
  else st.

Definition logPerformance (operation : string) (duration : Z) (metadata telemetryData : string)
    (st : LoggerState) : LoggerState :=
  let st1 := info ("Performance: " +:+ operation +:+ " completed in "
                     +:+ numberToString duration +:+ "ms") (Some metadata) st in
  if enableTelemetry (loggerConfig st1) then logTelemetry telemetryData st1 else st1.

End Logger.
End ExtensionLogger.

(** ** src/configManager.ts *)

Module ConfigurationManager.
Section Validation.

(** [new URL(url).protocol], [None] when the constructor throws. *)
Variable urlProtocol : string → option string.

Definition isValidUrl (url : string) : bool :=
  match urlProtocol url with
  | Some protocol => bool_decide (protocol = "http:") || bool_decide (protocol = "https:")
  | None => false
  end.

Record Validation := {
  isValid : bool;
  errors : list string }.

Definition validateConfig (config : ExtensionConfig) : Validation :=
  let errors : list string := [] in
  let errors :=
    if negb (truthy (endpoint (mcpServer config))) then
      errors ++ ["MCP server endpoint is required"]
    else if negb (isValidUrl (endpoint (mcpServer config))) then
      errors ++ ["MCP server endpoint must be a valid HTTP or HTTPS URL"]
    else errors in
  let errors :=
    if (timeout (mcpServer config) <? 1000) || (timeout (mcpServer config) >? 120000) then
      errors ++ ["MCP server timeout must be between 1000ms and 120000ms"]
    else errors in
  let errors :=
    if bool_decide (type (authentication config) ≠ none)
       && negb (truthy (token (authentication config))) then
      errors ++ ["Authentication token is required when authentication type is not "
                   +:+ doubleQuote +:+ "none" +:+ doubleQuote]
    else errors in
  let errors :=
    if (retries (mcpServer config) <? 0) || (retries (mcpServer config) >? 5) then
      errors ++ ["MCP server retries must be between 0 and 5"]
    else errors in
  {| isValid := bool_decide (length errors = 0%nat); errors := errors |}.

End Validation.
End ConfigurationManager.

(** ** Concrete inputs *)

(** The defaults of [ConfigurationManager.getConfig]. *)
Definition defaultConfig : ExtensionConfig :=
  {| mcpServer := {| endpoint := "http://localhost:3000/mcp";
                     timeout := 30000;
                     retries := 2 |};
     authentication := {| type := none; token := ""; headerName := "Authorization" |};
     httpClient := {| library := fetch;
                      userAgent := "VSCode-Copilot-MCP-Bridge/1.0.0" |};
     features := {| enabled := true;
                    includeWorkspaceContext := true;
                    includeActiveFile := true |};
     logging := {| level := LogInfo; enableTelemetry := false |} |}.

Definition withAuth (t : AuthType) (tok : string) (c : ExtensionConfig) : ExtensionConfig :=
  {| mcpServer := mcpServer c;
     authentication := {| type := t; token := tok;
                          headerName := headerName (authentication c) |};
     httpClient := httpClient c;
     features := features c;
     logging := logging c |}.

Definition withRetries (r : Z) (c : ExtensionConfig) : ExtensionConfig :=
  {| mcpServer := {| endpoint := endpoint (mcpServer c);
                     timeout := timeout (mcpServer c);
                     retries := r |};
     authentication := authentication c;
     httpClient := httpClient c;
     features := features c;
     logging := logging c |}.

Definition withLibrary (l : HttpLibrary) (c : ExtensionConfig) : ExtensionConfig :=
  {| mcpServer := mcpServer c;
     authentication := authentication c;
     httpClient := {| library := l; userAgent := userAgent (httpClient c) |};
     features := features c;
     logging := logging c |}.

Definition withEnabled (b : bool) (c : ExtensionConfig) : ExtensionConfig :=
  {| mcpServer := mcpServer c;
     authentication := authentication c;
     httpClient := httpClient c;
     features := {| enabled := b;
                    includeWorkspaceContext := includeWorkspaceContext (features c);
                    includeActiveFile := includeActiveFile (features c) |};
     logging := logging c |}.

Definition someHost : Host :=
  {| hostVersion := "1.85.0";
     bridgePackageVersion := Some "1.0.0";
     copilotPackageVersion := None;
     envUSERNAME := None;
     envUSER := Some "dev";
     workspaceFolder := None;
     textDocuments := [];
     activeTextEditor := None |}.

Definition startWorld : World := {| now := 1700000000000; calls := 0; effects := [] |}.

Definition someRequest : McpRequest :=
  {| prompt := "hi";
     sessionId := "session-1";
     userId := "user-dev";
     timestamp := 1700000000000;
     context := {| workspaceRoot := None; activeFile := None;
                   selection := None; openFiles := None |};
     metadata := {| extensionVersion := "1.0.0"; vscodeVersion := "1.85.0";
                    copilotVersion := None |} |}.

Definition someTurn : ChatTurn :=
  {| requestPrompt := "hi";
     historyLength := 0;
     randomSuffix := "k3j9x0q1z";
     cancelledBeforeSend := false;
     cancelledAfterSend := false |}.

Definition quietly (w : Wire) : Attempt :=
  {| wire := w; timedOut := false; cancelledInFlight := false; took := 40 |}.

(** A transport that refuses the first call and answers the second. *)
Definition secondTime (response : McpResponse) (i : nat) : Attempt :=
  match i with
  | O => quietly Refused
  | S _ => quietly (Reply 200 "OK" (Json response))
  end.

(** ** Observations on a run *)

(** What one attempt yields under the configured library: the branch of
    [makeHttpRequest]. *)
Definition settles (config : ExtensionConfig) (a : Attempt) : Outcome McpResponse :=
  if bool_decide (library (httpClient config) = axios)
  then McpService.makeAxiosRequest (timeout (mcpServer config)) a
  else McpService.makeFetchRequest a.

Definition isRejected {A : Type} (o : Outcome A) : bool :=
  match o with Rejected _ => true | Fulfilled _ => false end.

(** The exception of a rejected outcome. *)
Definition rejection {A : Type} (o : Outcome A) : option JsError :=
  match o with Rejected e => Some e | Fulfilled _ => None end.

(** An effect stripped of its clock and payload: [None] for an HTTP call,
    [Some ms] for a wait of [ms] milliseconds. *)
Definition kind (e : Effect) : option Z :=
  match e with
  | Dispatched _ _ _ _ _ _ => None
  | Slept _ ms => Some ms
  end.

(** The requests of the HTTP calls among the effects, in order. *)
Definition bodies (l : list Effect) : list McpRequest :=
  omap (λ e, match e with
             | Dispatched _ _ _ _ _ body => Some body
             | Slept _ _ => None
             end) l.

(** The waits among the effects, in order. *)
Definition waits (l : list Effect) : list Z := omap kind l.

(** The wait the code makes before attempt [k], attempts counted from 1. *)
Definition delayBefore (k : Z) : Z := Z.min (1000 * 2 ^ (k - 2)) 10000.

(** The wait before attempt [k] in the words of the retry bound of the
    specification. *)
Definition claimedDelayBefore (k : Z) : Z := Z.min (1000 * 2 ^ (k - 1)) 10000.

(** [n] further attempts, the first of them attempt [k], each after its
    wait. *)
Fixpoint furtherAttempts (k : Z) (n : nat) : list (option Z) :=
  match n with
  | O => []
  | S n' => Some (delayBefore k) :: None :: furtherAttempts (k + 1) n'
  end.

(** The shape of a run of [r + 1] attempts: a call, then [r] times a wait
    and a call. *)
Definition backoffSchedule (r : nat) : list (option Z) :=
  None :: furtherAttempts 2 r.

(** The request a turn sends: the one [handleChatRequest] builds for the
    session it resolves. *)
Definition turnRequest (config : ExtensionConfig) (host : Host)
    (sessions : gmap string ChatSession) (turn : ChatTurn) (w : World) : McpRequest :=
  CopilotChatParticipant.buildMcpRequest config host turn
    (CopilotChatParticipant.getOrCreateSession host sessions turn w).1 w.

(** The text [handleMcpError] writes around the sentence it selects. *)
Definition failureText (sentence originalPrompt : string) : string :=
  crossMark +:+ " **MCP Enhancement Failed**" +:+ nl +:+ nl
    +:+ sentence
    +:+ nl +:+ nl +:+ "**Fallback:** Using original prompt without enhancement."
    +:+ nl +:+ nl +:+ "**Original Prompt:** " +:+ originalPrompt.

(** The text of the pass-through segment. *)
Definition disabledText (originalPrompt : string) : string :=
  "**Original prompt:** " +:+ originalPrompt +:+ nl +:+ nl
    +:+ "*Note: MCP integration is currently disabled.*".

Definition progressNote : Segment := Progress "Enhancing prompt with MCP server...".

(** The body of the failure scenario: [{success: false, error: {code: "X",
    message: "bad"}}], with or without [data]. *)
Definition unsuccessful (d : option McpData) : McpResponse :=
  {| success := false; data := d; error_ := Some {| code := "X"; message := "bad" |} |}.

(** A response that enhances the prompt. *)
Definition enhanced : McpResponse :=
  {| success := true;
     data := Some {| enhancedPrompt := Some "hi, with context";
                     additionalContext := None;
                     suggestions := None;
                     dataMetadata := None |};
     error_ := None |}.

(** An attempt the endpoint would answer, during which [cancelRequests()]
    runs. *)
Definition cancelledMidFlight : Attempt :=
  {| wire := Reply 200 "OK" (Json enhanced);
     timedOut := false;
     cancelledInFlight := true;
     took := 40 |}.

(** A turn whose token is cancelled while the request is in flight. *)
Definition cancelledTurn : ChatTurn :=
  {| requestPrompt := "hi";
     historyLength := 0;
     randomSuffix := "k3j9x0q1z";
     cancelledBeforeSend := false;
     cancelledAfterSend := true |}.

Definition tooManyRequests : Attempt :=
  quietly (Reply 429 "Too Many Requests" (NotJson "Unexpected end of JSON input")).

(** The value [buildHeaders] puts under the configured header name. *)
Definition authValue (auth : AuthenticationConfig) : string :=
  match type auth with
  | bearer => "Bearer " +:+ token auth
  | api_key => token auth
  | basic => "Basic " +:+ base64 (token auth)
  | none => ""
  end.

(** A host with a workspace, two documents and an editor with a selection. *)
Definition busyHost : Host :=
  {| hostVersion := "1.85.0";
     bridgePackageVersion := Some "1.0.0";
     copilotPackageVersion := Some "1.150.0";
     envUSERNAME := None;
     envUSER := Some "dev";
     workspaceFolder := Some "/work/app";
     textDocuments := [ {| isUntitled := false; fsPath := "/work/app/main.ts" |};
                        {| isUntitled := true; fsPath := "Untitled-1" |} ];
     activeTextEditor :=
       Some {| document := {| isUntitled := false; fsPath := "/work/app/main.ts" |};
               languageId := "typescript";
               documentText := "const secret = 1;";
               editorSelection := Some {| start := (0, 0); end_ := (0, 5); text := "const" |} |} |}.

Definition withContextFlags (workspace file : bool) (c : ExtensionConfig) : ExtensionConfig :=
  {| mcpServer := mcpServer c;
     authentication := authentication c;
     httpClient := httpClient c;
     features := {| enabled := enabled (features c);
                    includeWorkspaceContext := workspace;
                    includeActiveFile := file |};
     logging := logging c |}.

Definition someSession : ChatSession :=
  {| id := "session-1";
     sessionUserId := "user-dev";
     startTime := 1699999000000;
     lastActivity := 1699999990000;
     messageCount := 3 |}.

(** A response with the [metadata] of its data removed. *)
Definition withoutMetadata (mcpResponse : McpResponse) : McpResponse :=
  {| success := success mcpResponse;
     data := (λ d, {| enhancedPrompt := enhancedPrompt d;
                      additionalContext := additionalContext d;
                      suggestions := suggestions d;
                      dataMetadata := None |}) <$> data mcpResponse;
     error_ := error_ mcpResponse |}.

(** The segment [handleMcpResponse] writes for one suggestion. *)
Definition suggestionLine (suggestion : string) : Segment :=
  Markdown (bullet +:+ " " +:+ suggestion +:+ nl).

(** A string that is [undefined], empty, or equal to [other]. *)
Definition absentOrSame (value : option string) (other : string) : Prop :=
  value = None ∨ value = Some "" ∨ value = Some other.

Definition withLevel (l : LogLevel) (c : ExtensionConfig) : ExtensionConfig :=
  {| mcpServer := mcpServer c;
     authentication := authentication c;
     httpClient := httpClient c;
     features := features c;
     logging := {| level := l; enableTelemetry := enableTelemetry (logging c) |} |}.

(** A response with suggestions and metadata. *)
Definition advised : McpResponse :=
  {| success := true;
     data := Some {| enhancedPrompt := Some "hi";
                     additionalContext := None;
                     suggestions := Some ["Write tests"; "Add types"; "Handle errors";
                                          "Profile first"];
                     dataMetadata := Some "{}" |};
     error_ := None |}.

(** The key under which [getOrCreateSession] looks the session up. *)
Definition sessionKey (turn : ChatTurn) (w : World) : string :=
  if (0 <? historyLength turn)%nat
  then "session-" +:+ numberToString (now w)
  else "session-" +:+ randomSuffix turn.

(** A session map with one session of a day and a half ago and one of an
    hour ago, at the clock of [startWorld]. *)
Definition staleSession : ChatSession :=
  {| id := "session-old";
     sessionUserId := "user-dev";
     startTime := 1699870000000;
     lastActivity := 1699870400000;
     messageCount := 7 |}.

Definition recentSession : ChatSession :=
  {| id := "session-new";
     sessionUserId := "user-dev";
     startTime := 1699996000000;
     lastActivity := 1699996400000;
     messageCount := 2 |}.

Definition twoSessions : gmap string ChatSession :=
  <["session-old" := staleSession]> {["session-new" := recentSession]}.

(** A turn of a conversation that has history. *)
Definition laterTurn : ChatTurn :=
  {| requestPrompt := "and then?";
     historyLength := 2;
     randomSuffix := "k3j9x0q1z";
     cancelledBeforeSend := false;
     cancelledAfterSend := false |}.

(** The session of [someTurn], with three messages counted. *)
Definition knownSession : ChatSession :=
  {| id := "session-k3j9x0q1z";
     sessionUserId := "user-dev";
     startTime := 1699999000000;
     lastActivity := 1699999990000;
     messageCount := 3 |}.

Definition laterWorld : World := {| now := 1700000000001; calls := 0; effects := [] |}.

(** A logger at a given level, with telemetry on and nothing written. *)
Definition freshLogger (l : LogLevel) : ExtensionLogger.LoggerState :=
  {| ExtensionLogger.loggerConfig := {| level := l; enableTelemetry := true |};
     ExtensionLogger.outputChannel := [];
     ExtensionLogger.console := [] |}.

(** A URL parser for the sample inputs: the scheme of the two web schemes,
    and a failure for anything else. *)
Definition sampleUrlProtocol (url : string) : option string :=
  if String.prefix "http://" url then Some "http:"
  else if String.prefix "https://" url then Some "https:"
  else None.

(** A configuration that passes validation with [sampleUrlProtocol]. *)
Definition securedConfig : ExtensionConfig := withAuth bearer "abc" defaultConfig.

(** ** sample-mcp-server/server.js *)

Module SampleServer.
Section Suggestions.

(** [String.prototype.toLowerCase], as the host gives it. *)
Variable toLowerCase : string → string.


End Suggestions.
End SampleServer.

(** A turn whose token is cancelled before the request is sent. *)
Definition abandonedTurn : ChatTurn :=
  {| requestPrompt := "hi";
     historyLength := 0;
     randomSuffix := "k3j9x0q1z";
     cancelledBeforeSend := true;
     cancelledAfterSend := true |}.

(** ** Headers *)

Section Headers.

Variable config : ExtensionConfig.
Variable host : Host.

Let auth := authentication config.
Let headers := McpService.buildHeaders config host.
Let fixed := McpService.fixedHeaders config host.

Lemma fixedHeaders_dom :
  dom fixed = ({["Content-Type"; "User-Agent"; "X-VS-Code-Version"; "X-Extension-Version"]} : gset string).
Proof.
  subst fixed. unfold McpService.fixedHeaders.
  rewrite !dom_insert_L, dom_singleton_L. set_solver.
Qed.

Lemma fixedHeaders_lookup :
  fixed !! "Content-Type" = Some "application/json"
  ∧ fixed !! "User-Agent" = Some (userAgent (httpClient config))
  ∧ fixed !! "X-VS-Code-Version" = Some (hostVersion host)
  ∧ fixed !! "X-Extension-Version" = Some (McpService.getExtensionVersion host).
Proof.
  subst fixed. unfold McpService.fixedHeaders.
  repeat split; by simplify_map_eq.
Qed.

Lemma fixedHeaders_other (k : string) :
  k ∉ ({["Content-Type"; "User-Agent"; "X-VS-Code-Version"; "X-Extension-Version"]} : gset string) →
  fixed !! k = None.
Proof.
  intros Hk. apply not_elem_of_dom. by rewrite fixedHeaders_dom.
Qed.

Lemma buildHeaders_bearer :
  type auth = bearer → token auth ≠ "" →
  headers = <[headerName auth := "Bearer " +:+ token auth]> fixed.
Proof.
  subst auth headers fixed. unfold McpService.buildHeaders.
  intros -> Htok. destruct (token (authentication config)); [done | reflexivity].
Qed.

Lemma buildHeaders_api_key :
  type auth = api_key → token auth ≠ "" →
  headers = <[headerName auth := token auth]> fixed.
Proof.
  subst auth headers fixed. unfold McpService.buildHeaders.
  intros -> Htok. destruct (token (authentication config)); [done | reflexivity].
Qed.

Lemma buildHeaders_basic :
  type auth = basic → token auth ≠ "" →
  headers = <[headerName auth := "Basic " +:+ base64 (token auth)]> fixed.
Proof.
  subst auth headers fixed. unfold McpService.buildHeaders.
  intros -> Htok. destruct (token (authentication config)); [done | reflexivity].
Qed.

Lemma buildHeaders_none : type auth = none → headers = fixed.
Proof.
  subst auth headers fixed. unfold McpService.buildHeaders. by intros ->.
Qed.

Lemma buildHeaders_no_token : token auth = "" → headers = fixed.
Proof.
  subst auth headers fixed. unfold McpService.buildHeaders. intros ->.
  by rewrite andb_false_r.
Qed.

(** C8. The authentication header of a built request follows the table:
    [bearer] with token abc gives exactly [Bearer abc] under the configured
    header name, [api-key] with token k1 gives exactly [k1], [basic] with
    token u:p gives [Basic ] followed by the base64 of u:p (that is,
    [Basic dTpw]), and [none] leaves the header map at the four fixed
    headers, so that no key is present for an authentication header. *)
Theorem buildHeaders_auth_table :
  (type auth = bearer → token auth = "abc" →
     headers !! headerName auth = Some "Bearer abc")
  ∧ (type auth = api_key → token auth = "k1" →
       headers !! headerName auth = Some "k1")
  ∧ (type auth = basic → token auth = "u:p" →
       headers !! headerName auth = Some ("Basic " +:+ base64 "u:p")
       ∧ "Basic " +:+ base64 "u:p" = "Basic dTpw")
  ∧ (type auth = none →
       headers = fixed
       ∧ dom headers = ({["Content-Type"; "User-Agent"; "X-VS-Code-Version";
                          "X-Extension-Version"]} : gset string)
       ∧ (headerName auth ∉ ({["Content-Type"; "User-Agent"; "X-VS-Code-Version";
                                "X-Extension-Version"]} : gset string) →
          headers !! headerName auth = None)).
Proof.
  split; [| split; [| split]].
  - intros Ht Htok. rewrite buildHeaders_bearer by (done || by rewrite Htok).
    rewrite lookup_insert_eq. by rewrite Htok.
  - intros Ht Htok. rewrite buildHeaders_api_key by (done || by rewrite Htok).
    rewrite lookup_insert_eq. by rewrite Htok.
  - intros Ht Htok. split; [| reflexivity].
    rewrite buildHeaders_basic by (done || by rewrite Htok).
    rewrite lookup_insert_eq. by rewrite Htok.
  - intros Ht. rewrite buildHeaders_none by done.
    split; [done |]. split; [apply fixedHeaders_dom | apply fixedHeaders_other].
Qed.

(** C10. With an authentication type other than [none] and an empty
    token, [buildHeaders] adds nothing: the map is the four fixed headers,
    each with its value, and the configured header name, when it is not
    the name of a fixed header, is absent. *)
Theorem buildHeaders_empty_token :
  type auth = bearer ∨ type auth = api_key ∨ type auth = basic →
  token auth = "" →
  headers = fixed
  ∧ headers !! "Content-Type" = Some "application/json"
  ∧ headers !! "User-Agent" = Some (userAgent (httpClient config))
  ∧ headers !! "X-VS-Code-Version" = Some (hostVersion host)
  ∧ headers !! "X-Extension-Version" = Some (McpService.getExtensionVersion host)
  ∧ (headerName auth ∉ ({["Content-Type"; "User-Agent"; "X-VS-Code-Version";
                           "X-Extension-Version"]} : gset string) →
     headers !! headerName auth = None).
Proof.
  intros _ Htok. rewrite buildHeaders_no_token by done.
  split; [done |].
  destruct fixedHeaders_lookup as (H1 & H2 & H3 & H4).
  repeat split; try done. apply fixedHeaders_other.
Qed.

End Headers.

Lemma buildHeaders_auth_table_witness :
  McpService.buildHeaders (withAuth bearer "abc" defaultConfig) someHost !! "Authorization"
    = Some "Bearer abc"
  ∧ McpService.buildHeaders (withAuth api_key "k1" defaultConfig) someHost !! "Authorization"
    = Some "k1"
  ∧ McpService.buildHeaders (withAuth basic "u:p" defaultConfig) someHost !! "Authorization"
    = Some "Basic dTpw"
  ∧ McpService.buildHeaders (withAuth none "" defaultConfig) someHost !! "Authorization"
    = None.
Proof.
  split; [| split; [| split]].
  - apply (proj1 (buildHeaders_auth_table (withAuth bearer "abc" defaultConfig) someHost));
      reflexivity.
  - apply (proj1 (proj2 (buildHeaders_auth_table (withAuth api_key "k1" defaultConfig) someHost)));
      reflexivity.
  - apply (proj1 (proj2 (proj2
             (buildHeaders_auth_table (withAuth basic "u:p" defaultConfig) someHost))));
      reflexivity.
  - apply (proj2 (proj2 (proj2
             (buildHeaders_auth_table (withAuth none "" defaultConfig) someHost))));
      [reflexivity | by apply (bool_decide_unpack _)].
Defined.

Lemma buildHeaders_empty_token_witness :
  McpService.buildHeaders (withAuth bearer "" defaultConfig) someHost
    = McpService.fixedHeaders (withAuth bearer "" defaultConfig) someHost
  ∧ McpService.buildHeaders (withAuth bearer "" defaultConfig) someHost !! "Authorization"
    = None.
Proof.
  pose proof (buildHeaders_empty_token (withAuth bearer "" defaultConfig) someHost
                (or_introl eq_refl) eq_refl) as (H & _ & _ & _ & _ & Habsent).
  split; [exact H | apply Habsent; by apply (bool_decide_unpack _)].
Defined.

(** ** The retry loop *)

Section RetryLoop.

Variable config : ExtensionConfig.
Variable host : Host.
Variable net : nat → Attempt.
Variable mcpRequest : McpRequest.

Let r := retries (mcpServer config).

Lemma makeHttpRequest_eq (w : World) :
  McpService.makeHttpRequest config host net mcpRequest w =
    (settles config (net (calls w)),
     {| now := now w + took (net (calls w));
        calls := S (calls w);
        effects := effects w ++
          [Dispatched (now w) (library (httpClient config)) (endpoint (mcpServer config))
             (McpService.buildHeaders config host) (timeout (mcpServer config)) mcpRequest] |}).
Proof. reflexivity. Qed.

Lemma retryLoop_unfold (attempt : Z) (lastError : option JsError) (w : World) :
  McpService.retryLoop config host net mcpRequest attempt lastError w =
    if decide (attempt <= r) then
      match McpService.makeHttpRequest config host net mcpRequest w with
      | (Fulfilled response, w1) => (Fulfilled response, w1)
      | (Rejected error, w1) =>
          McpService.retryLoop config host net mcpRequest (attempt + 1) (Some error)
            (if attempt + 1 <=? r
             then McpService.delay (McpService.backoff (attempt + 1)) w1
             else w1)
      end
    else (Rejected (McpService.throwLastError lastError), w).
Proof.
  subst r. simp retryLoop.
  destruct (decide (attempt <= retries (mcpServer config))); simpl; [| reflexivity].
  unfold McpService.makeHttpRequest.
  by destruct (if bool_decide _ then _ else _).
Qed.

(** The world once the HTTP call of an attempt has been made. *)
Let called (w : World) : World :=
  (McpService.makeHttpRequest config host net mcpRequest w).2.

(** The world in which the next attempt starts. *)
Let rested (attempt : Z) (w : World) : World :=
  if attempt + 1 <=? r
  then McpService.delay (McpService.backoff (attempt + 1)) (called w)
  else called w.

Lemma retryLoop_step (attempt : Z) (lastError : option JsError) (w : World) :
  attempt <= r →
  McpService.retryLoop config host net mcpRequest attempt lastError w =
    match settles config (net (calls w)) with
    | Fulfilled response => (Fulfilled response, called w)
    | Rejected error =>
        McpService.retryLoop config host net mcpRequest (attempt + 1) (Some error)
          (rested attempt w)
    end.
Proof.
  intros Hle. rewrite retryLoop_unfold. subst r called rested.
  destruct (decide _) as [_ | Hn]; [| lia].
  rewrite makeHttpRequest_eq. cbn [snd].
  by destruct (settles config (net (calls w))).
Qed.

Lemma retryLoop_done (attempt : Z) (lastError : option JsError) (w : World) :
  ¬ attempt <= r →
  McpService.retryLoop config host net mcpRequest attempt lastError w =
    (Rejected (McpService.throwLastError lastError), w).
Proof.
  intros Hgt. rewrite retryLoop_unfold. subst r.
  destruct (decide _) as [Hle | _]; [lia | reflexivity].
Qed.

Lemma called_effects (w : World) :
  effects (called w) = effects w ++
    [Dispatched (now w) (library (httpClient config)) (endpoint (mcpServer config))
       (McpService.buildHeaders config host) (timeout (mcpServer config)) mcpRequest].
Proof. reflexivity. Qed.

Lemma called_calls (w : World) : calls (called w) = S (calls w).
Proof. reflexivity. Qed.

Lemma rested_calls (attempt : Z) (w : World) : calls (rested attempt w) = S (calls w).
Proof. subst rested. simpl. by destruct (_ <=? _). Qed.

Lemma rested_effects (attempt : Z) (w : World) :
  effects (rested attempt w) = effects w ++
    Dispatched (now w) (library (httpClient config)) (endpoint (mcpServer config))
       (McpService.buildHeaders config host) (timeout (mcpServer config)) mcpRequest
    :: (if attempt + 1 <=? r
        then [Slept (now w + took (net (calls w))) (McpService.backoff (attempt + 1))]
        else []).
Proof.
  subst rested. simpl. destruct (_ <=? _); simpl.
  - by rewrite <- app_assoc.
  - reflexivity.
Qed.

(** Every HTTP call of the loop carries the request it was given. *)
Lemma retryLoop_bodies (n : nat) :
  ∀ (attempt : Z) (lastError : option JsError) (w : World),
    Z.to_nat (r + 1 - attempt) = n →
    ∃ new,
      effects (McpService.retryLoop config host net mcpRequest attempt lastError w).2
        = effects w ++ new
      ∧ Forall (λ b, b = mcpRequest) (bodies new).
Proof.
  induction n as [| n IH]; intros attempt lastError w Hn.
  - rewrite retryLoop_done by lia. exists []. split; [by rewrite app_nil_r | constructor].
  - rewrite retryLoop_step by lia.
    destruct (settles config (net (calls w))) as [response | error].
    + eexists. split; [apply called_effects |]. repeat constructor.
    + destruct (IH (attempt + 1) (Some error) (rested attempt w)) as (new & Heff & Hall);
        [lia |].
      rewrite Heff, rested_effects, <- app_assoc. eexists. split; [reflexivity |].
      destruct (_ <=? _); simpl; by constructor.
Qed.

Lemma handleError_classified (error : JsError) :
  ∃ t m, McpService.handleError error = McpError t m.
Proof.
  unfold McpService.handleError.
  destruct error; simpl; eauto; destruct (includes _ _); eauto.
Qed.

(** Once an attempt has been made, whatever the loop throws is classified. *)
Lemma retryLoop_classified (n : nat) :
  ∀ (attempt : Z) (lastError : option JsError) (w : World) (e : JsError),
    Z.to_nat (r + 1 - attempt) = n →
    n ≠ O ∨ is_Some lastError →
    (McpService.retryLoop config host net mcpRequest attempt lastError w).1 = Rejected e →
    ∃ t m, e = McpError t m.
Proof.
  induction n as [| n IH]; intros attempt lastError w e Hn Hran.
  - rewrite retryLoop_done by lia. simpl. intros [= <-].
    destruct Hran as [? | [error ->]]; [done |]. apply handleError_classified.
  - rewrite retryLoop_step by lia.
    destruct (settles config (net (calls w))) as [response | error]; [done |].
    apply IH; [lia | right; eauto].
Qed.

(** The loop against a transport that fails every time. *)
Lemma retryLoop_failing :
  (∀ i, isRejected (settles config (net i)) = true) →
  ∀ (n : nat) (attempt : Z) (lastError : option JsError) (w : World),
    Z.to_nat (r + 1 - attempt) = n →
    ∃ new w',
      McpService.retryLoop config host net mcpRequest attempt lastError w
        = (Rejected (McpService.throwLastError
                       (match n with
                        | O => lastError
                        | S m => rejection (settles config (net (calls w + m)%nat))
                        end)), w')
      ∧ effects w' = effects w ++ new
      ∧ calls w' = (calls w + n)%nat
      ∧ map kind new = match n with
                       | O => []
                       | S m => None :: furtherAttempts (attempt + 2) m
                       end.
Proof.
  intros Hfail. induction n as [| n IH]; intros attempt lastError w Hn.
  - rewrite retryLoop_done by lia. exists [], w.
    repeat split; [by rewrite app_nil_r | lia].
  - rewrite retryLoop_step by lia.
    specialize (Hfail (calls w)) as Hnow.
    destruct (settles config (net (calls w))) as [response | error] eqn:Hset; [done |].
    destruct (IH (attempt + 1) (Some error) (rested attempt w)) as (new & w' & Hrun & Heff & Hcalls & Hshape);
      [lia |].
    rewrite Hrun, rested_calls in *. rewrite rested_effects, <- app_assoc in Heff.
    eexists. exists w'. split; [| split; [exact Heff | split; [lia |]]].
    + destruct n as [| m].
      * by rewrite Nat.add_0_r, Hset.
      * by replace (calls w + S m)%nat with (S (calls w) + m)%nat by lia.
    + rewrite map_app, map_cons, Hshape, <- app_comm_cons. cbn [kind]. f_equal.
      destruct n as [| m].
      * replace (attempt + 1 <=? r) with false by (symmetry; apply Z.leb_gt; lia).
        reflexivity.
      * replace (attempt + 1 <=? r) with true by (symmetry; apply Z.leb_le; lia).
        cbn [map kind app furtherAttempts]. unfold McpService.backoff, delayBefore, pow2.
        by replace (attempt + 1 + 2) with (attempt + 2 + 1) by lia;
           replace (attempt + 1 - 1) with (attempt + 2 - 2) by lia.
Qed.

End RetryLoop.

(** ** Shapes of runs *)

Lemma waits_kind (l : list Effect) : waits l = omap Datatypes.id (map kind l).
Proof.
  induction l as [| e l IH]; [reflexivity |].
  destruct e; simpl; unfold waits in *; simpl; by rewrite IH.
Qed.

Lemma bodies_kind (l : list Effect) :
  length (bodies l) = length (filter (λ o : option Z, o = None) (map kind l)).
Proof.
  induction l as [| e l IH]; [reflexivity |].
  destruct e; cbn [map kind];
    [rewrite filter_cons_True by done | rewrite filter_cons_False by done];
    cbn [length]; rewrite <- IH; reflexivity.
Qed.

Lemma furtherAttempts_waits (n : nat) :
  ∀ k, omap Datatypes.id (furtherAttempts k n)
       = map (λ i, delayBefore (k + Z.of_nat i)) (seq 0 n).
Proof.
  induction n as [| n IH]; intros k; [reflexivity |].
  cbn [furtherAttempts omap]. simpl. rewrite IH, <- seq_shift, map_map.
  rewrite Z.add_0_r. f_equal. apply map_ext. intros i. f_equal. lia.
Qed.

Lemma furtherAttempts_calls (n : nat) :
  ∀ k, length (filter (λ o : option Z, o = None) (furtherAttempts k n)) = n.
Proof.
  induction n as [| n IH]; intros k; [reflexivity |].
  cbn [furtherAttempts]. rewrite filter_cons_False by done.
  rewrite filter_cons_True by done. simpl. by rewrite IH.
Qed.

Lemma furtherAttempts_lookup (n : nat) (k j : Z) :
  k <= j < k + Z.of_nat n →
  omap Datatypes.id (furtherAttempts k n) !! Z.to_nat (j - k) = Some (delayBefore j).
Proof.
  intros Hj. rewrite furtherAttempts_waits, list_lookup_fmap.
  rewrite lookup_seq_lt by lia. simpl. do 2 f_equal. lia.
Qed.

(** ** The transport client *)

Section Transport.

Variable config : ExtensionConfig.
Variable host : Host.
Variable net : nat → Attempt.

Let r := retries (mcpServer config).

(** With a retry count that is not negative, [sendMcpRequest] rejects only
    with an [McpError]: the loop body runs, so [handleError] has an error to
    classify. *)
Lemma sendMcpRequest_classified (mcpRequest : McpRequest) (w : World) (e : JsError) :
  0 <= r →
  (McpService.sendMcpRequest config host net mcpRequest w).1 = Rejected e →
  ∃ t m, e = McpError t m.
Proof.
  intros Hr. unfold McpService.sendMcpRequest.
  destruct (enabled (features config)); simpl; [| done].
  apply (retryLoop_classified config host net mcpRequest (Z.to_nat (r + 1))); subst r.
  - f_equal. lia.
  - left. lia.
Qed.

(** C1. [sendMcpRequest] is meant to reject only with a classified
    [McpError] (the failure-tagged result of the transport client), and it
    does once an attempt has been made.  With a negative retry count the loop
    body never runs, [lastError] stays [undefined], and the [TypeError] that
    [handleError] raises on it leaves [sendMcpRequest] unclassified, without
    any HTTP call. *)
Theorem sendMcpRequest_negative_retries (mcpRequest : McpRequest) (w : World) :
  enabled (features config) = true →
  r < 0 →
  McpService.sendMcpRequest config host net mcpRequest w =
    (Rejected (PlainError "TypeError"
                 "Cannot read properties of undefined (reading 'message')"), w)
  ∧ typeOf (PlainError "TypeError"
              "Cannot read properties of undefined (reading 'message')") = None.
Proof.
  intros Hen Hr. split; [| reflexivity].
  unfold McpService.sendMcpRequest. rewrite Hen. simpl.
  rewrite retryLoop_done by (subst r; lia). reflexivity.
Qed.

(** C4, as the code has it.  With retry count r, not negative, and a
    transport that fails every time, [sendMcpRequest] makes exactly r + 1
    HTTP calls, one after the other, waits min(1000 * 2^(k-2), 10000) ms
    before attempt k for every k from 2 to r + 1 (1000, 2000, 4000, 8000,
    10000, ...), and rejects with the classification of the error of the
    last attempt. *)
Theorem sendMcpRequest_retry_bound (mcpRequest : McpRequest) (w : World) :
  enabled (features config) = true →
  0 <= r →
  (∀ i, isRejected (settles config (net i)) = true) →
  ∃ new w' lastError,
    McpService.sendMcpRequest config host net mcpRequest w
      = (Rejected (McpService.handleError lastError), w')
    ∧ settles config (net (calls w + Z.to_nat r)%nat) = Rejected lastError
    ∧ effects w' = effects w ++ new
    ∧ map kind new = backoffSchedule (Z.to_nat r)
    ∧ length (bodies new) = Z.to_nat (r + 1)
    ∧ length (waits new) = Z.to_nat r
    ∧ (∀ k, 2 <= k <= r + 1 → waits new !! Z.to_nat (k - 2) = Some (delayBefore k)).
Proof.
  intros Hen Hr Hfail.
  destruct (retryLoop_failing config host net mcpRequest Hfail (S (Z.to_nat r)) 0 None w)
    as (new & w' & Hrun & Heff & _ & Hshape); [subst r; lia |].
  specialize (Hfail (calls w + Z.to_nat r)%nat).
  destruct (settles config (net (calls w + Z.to_nat r)%nat)) as [? | lastError] eqn:Hlast;
    [done |].
  exists new, w', lastError.
  assert (Hkinds : map kind new = backoffSchedule (Z.to_nat r)) by exact Hshape.
  split; [| split; [reflexivity | split; [exact Heff | split; [exact Hkinds |]]]].
  - unfold McpService.sendMcpRequest. rewrite Hen. simpl. exact Hrun.
  - rewrite bodies_kind, waits_kind, Hkinds. unfold backoffSchedule.
    rewrite filter_cons_True by done. cbn [length omap].
    rewrite furtherAttempts_calls. simpl.
    split; [lia |]. split.
    + by rewrite furtherAttempts_waits, length_map, length_seq.
    + intros k Hk. apply furtherAttempts_lookup. lia.
Qed.

(** The requests of the HTTP calls of one [sendMcpRequest]: each is the
    request it was given. *)
Lemma sendMcpRequest_bodies (mcpRequest : McpRequest) (w : World) :
  ∃ new,
    effects (McpService.sendMcpRequest config host net mcpRequest w).2 = effects w ++ new
    ∧ Forall (λ b, b = mcpRequest) (bodies new).
Proof.
  unfold McpService.sendMcpRequest. destruct (enabled (features config)); simpl.
  - apply (retryLoop_bodies config host net mcpRequest (Z.to_nat (r + 1 - 0))). reflexivity.
  - exists []. split; [by rewrite app_nil_r | constructor].
Qed.

End Transport.

Lemma sendMcpRequest_negative_retries_witness :
  McpService.sendMcpRequest (withRetries (-1) defaultConfig) someHost
    (λ _, quietly Refused) someRequest startWorld
  = (Rejected (PlainError "TypeError"
                 "Cannot read properties of undefined (reading 'message')"), startWorld).
Proof.
  apply (sendMcpRequest_negative_retries (withRetries (-1) defaultConfig) someHost
           (λ _, quietly Refused) someRequest startWorld); [reflexivity | simpl; lia].
Defined.

Lemma sendMcpRequest_retry_bound_witness :
  ∃ new w' lastError,
    McpService.sendMcpRequest defaultConfig someHost (λ _, quietly Refused)
      someRequest startWorld
      = (Rejected (McpService.handleError lastError), w')
    ∧ effects w' = effects startWorld ++ new
    ∧ map kind new = [None; Some 1000; None; Some 2000; None].
Proof.
  destruct (sendMcpRequest_retry_bound defaultConfig someHost (λ _, quietly Refused)
              someRequest startWorld)
    as (new & w' & lastError & Hrun & _ & Heff & Hshape & _);
    [reflexivity | simpl; lia | intros i; reflexivity |].
  exists new, w', lastError. split; [exact Hrun | split; [exact Heff | exact Hshape]].
Defined.

(** C4 as stated fails: with one retry the wait before attempt 2 is 1000 ms,
    where min(1000 * 2^(k-1), 10000) gives 2000 ms. *)
Lemma retry_delay_not_as_claimed :
  let run := McpService.sendMcpRequest (withRetries 1 defaultConfig) someHost
               (λ _, quietly Refused) someRequest startWorld in
  waits (effects run.2) = [1000]
  ∧ claimedDelayBefore 2 = 2000
  ∧ waits (effects run.2) !! 0%nat ≠ Some (claimedDelayBefore 2).
Proof.
  vm_compute. split; [reflexivity | split; [reflexivity | discriminate]].
Qed.

(** ** The orchestrator *)

Lemma string_app_assoc (a b c : string) : (a +:+ b) +:+ c = a +:+ (b +:+ c).
Proof.
  induction a as [| x a IH]; [reflexivity |].
  change (String x ((a +:+ b) +:+ c) = String x (a +:+ b +:+ c)). by f_equal.
Qed.

Lemma handleMcpError_text (error : JsError) (originalPrompt : string) :
  CopilotChatParticipant.handleMcpError error originalPrompt =
    [Markdown (failureText (CopilotChatParticipant.errorSentence error) originalPrompt)].
Proof.
  unfold CopilotChatParticipant.handleMcpError, failureText. cbv zeta.
  by rewrite !string_app_assoc.
Qed.

Section Orchestrator.

Variable config : ExtensionConfig.
Variable host : Host.
Variable net : nat → Attempt.
Variable sessions : gmap string ChatSession.
Variable turn : ChatTurn.
Variable w : World.

Let result := CopilotChatParticipant.handleChatRequest config host net sessions turn w.
Let mcpRequest := turnRequest config host sessions turn w.
Let sent := McpService.sendMcpRequest config host net mcpRequest w.

Lemma handleChatRequest_enabled :
  enabled (features config) = true →
  cancelledBeforeSend turn = false →
  result =
    let sessions1 := (CopilotChatParticipant.getOrCreateSession host sessions turn w).2 in
    let session := (CopilotChatParticipant.getOrCreateSession host sessions turn w).1 in
    match sent with
    | (Fulfilled mcpResponse, w1) =>
        if cancelledAfterSend turn then
          {| sessionsAfter := sessions1; worldAfter := w1; stream := [progressNote] |}
        else
          match CopilotChatParticipant.handleMcpResponse config mcpResponse
                  (requestPrompt turn) with
          | Fulfilled written =>
              {| sessionsAfter := CopilotChatParticipant.touchSession session w1 sessions1;
                 worldAfter := w1;
                 stream := progressNote :: written |}
          | Rejected error =>
              {| sessionsAfter := sessions1;
                 worldAfter := w1;
                 stream := progressNote
                             :: CopilotChatParticipant.handleMcpError error (requestPrompt turn) |}
          end
    | (Rejected error, w1) =>
        {| sessionsAfter := sessions1;
           worldAfter := w1;
           stream := progressNote
                       :: CopilotChatParticipant.handleMcpError error (requestPrompt turn) |}
    end.
Proof.
  intros Hen Hcan. subst result sent mcpRequest.
  unfold CopilotChatParticipant.handleChatRequest, turnRequest.
  rewrite Hen, Hcan. simpl.
  by destruct (CopilotChatParticipant.getOrCreateSession host sessions turn w).
Qed.

(** C5, as the code has it.  With the feature flag off, [handleChatRequest]
    writes exactly one segment, the original prompt verbatim between the
    label [**Original prompt:**] and the note that the integration is
    disabled, makes no HTTP call and leaves the sessions as they were; and
    [sendMcpRequest] returns success with [enhancedPrompt] equal to the
    prompt of the request, without an HTTP call. *)
Theorem disabled_passes_through (anyRequest : McpRequest) :
  enabled (features config) = false →
  stream result = [Markdown (disabledText (requestPrompt turn))]
  ∧ sessionsAfter result = sessions
  ∧ worldAfter result = w
  ∧ McpService.sendMcpRequest config host net anyRequest w =
      (Fulfilled {| success := true;
                    data := Some {| enhancedPrompt := Some (prompt anyRequest);
                                    additionalContext := None;
                                    suggestions := None;
                                    dataMetadata := None |};
                    error_ := None |}, w).
Proof.
  intros Hoff. subst result.
  unfold CopilotChatParticipant.handleChatRequest, McpService.sendMcpRequest, disabledText.
  by rewrite Hoff.
Qed.

(** C6, as the code has it.  When [sendMcpRequest] rejects, the turn still
    ends with a response: after the progress note, one segment made of the
    failure heading, the sentence for the error, the fallback line and the
    original prompt verbatim.  The sentence is fixed for [CONNECTION_ERROR],
    [AUTHENTICATION_ERROR], [TIMEOUT_ERROR] and [RATE_LIMITED]; for
    [INVALID_RESPONSE], [SERVER_ERROR] and [CONFIGURATION_ERROR] it is
    [Error: ] followed by the message of the error. *)
Theorem failure_falls_back (t : McpErrorType) (m : string) :
  enabled (features config) = true →
  cancelledBeforeSend turn = false →
  sent.1 = Rejected (McpError t m) →
  stream result =
    [progressNote;
     Markdown (failureText (CopilotChatParticipant.errorSentence (McpError t m))
                 (requestPrompt turn))]
  ∧ CopilotChatParticipant.errorSentence (McpError t m) =
      match t with
      | CONNECTION_ERROR =>
          "Unable to connect to MCP server. Please check your configuration."
      | AUTHENTICATION_ERROR =>
          "Authentication failed. Please check your API credentials."
      | TIMEOUT_ERROR =>
          "Request timed out. The MCP server may be overloaded."
      | RATE_LIMITED =>
          "Rate limit exceeded. Please wait before making another request."
      | INVALID_RESPONSE | SERVER_ERROR | CONFIGURATION_ERROR => "Error: " +:+ m
      end.
Proof.
  intros Hen Hcan Hsent. split; [| by destruct t].
  rewrite handleChatRequest_enabled by done. cbv zeta.
  subst sent. destruct (McpService.sendMcpRequest config host net mcpRequest w) as [o w1].
  simpl in Hsent. subst o. cbn [stream]. by rewrite handleMcpError_text.
Qed.

Lemma settles_ok_json (a : Attempt) (statusText : string) (response : McpResponse) :
  wire a = Reply 200 statusText (Json response) →
  timedOut a = false →
  cancelledInFlight a = false →
  settles config a = Fulfilled response.
Proof.
  intros Hwire Htime Hcancel. unfold settles.
  destruct (bool_decide _).
  - unfold McpService.makeAxiosRequest, axiosCall. by rewrite Htime, Hwire.
  - unfold McpService.makeFetchRequest, fetchCall. by rewrite Htime, Hcancel, Hwire.
Qed.

(** C7. When the endpoint answers the first attempt with HTTP 200 and the
    body [{success: false, error: {code: "X", message: "bad"}}], the
    response is not treated as a success: [handleMcpResponse] raises a
    [SERVER_ERROR] carrying the message [bad], no session is updated, and the
    turn ends on the failure path, with [Error: bad] and the original prompt
    in the segment written. *)
Theorem unsuccessful_body_is_failure (statusText : string) (d : option McpData) :
  enabled (features config) = true →
  0 <= retries (mcpServer config) →
  cancelledBeforeSend turn = false →
  cancelledAfterSend turn = false →
  wire (net (calls w)) = Reply 200 statusText (Json (unsuccessful d)) →
  timedOut (net (calls w)) = false →
  cancelledInFlight (net (calls w)) = false →
  sent.1 = Fulfilled (unsuccessful d)
  ∧ CopilotChatParticipant.handleMcpResponse config (unsuccessful d) (requestPrompt turn)
    = Rejected (McpError SERVER_ERROR "bad")
  ∧ stream result = [progressNote; Markdown (failureText "Error: bad" (requestPrompt turn))]
  ∧ sessionsAfter result = (CopilotChatParticipant.getOrCreateSession host sessions turn w).2.
Proof.
  intros Hen Hr Hbefore Hafter Hwire Htime Hcancel.
  assert (Hsent : sent.1 = Fulfilled (unsuccessful d)).
  { subst sent. unfold McpService.sendMcpRequest. rewrite Hen. simpl.
    rewrite retryLoop_step by lia.
    by rewrite (settles_ok_json _ _ _ Hwire Htime Hcancel). }
  split; [exact Hsent |]. split; [reflexivity |].
  rewrite handleChatRequest_enabled by done. cbv zeta.
  subst sent. destruct (McpService.sendMcpRequest config host net mcpRequest w) as [o w1].
  simpl in Hsent. subst o. rewrite Hafter.
  change (CopilotChatParticipant.handleMcpResponse config (unsuccessful d) (requestPrompt turn))
    with (@Rejected (list Segment) (McpError SERVER_ERROR "bad")).
  cbn [stream sessionsAfter]. by rewrite handleMcpError_text.
Qed.

(** The world a turn ends in is the one it started in, or the one its
    request left. *)
Lemma handleChatRequest_world :
  worldAfter result = w ∨ worldAfter result = sent.2.
Proof.
  subst result sent mcpRequest.
  unfold CopilotChatParticipant.handleChatRequest, turnRequest.
  destruct (enabled (features config)); simpl; [| by left].
  destruct (CopilotChatParticipant.getOrCreateSession host sessions turn w) as [session sessions1].
  destruct (cancelledBeforeSend turn); [by left |]. right. simpl.
  destruct (McpService.sendMcpRequest _ _ _ _ _) as [[mcpResponse | error] w1]; simpl;
    [| reflexivity].
  destruct (cancelledAfterSend turn); [reflexivity |].
  by destruct (CopilotChatParticipant.handleMcpResponse _ _ _).
Qed.

(** C9. The timestamp of a request is the clock at the moment
    [buildMcpRequest] runs; every HTTP call of [sendMcpRequest], the first
    attempt and each retry, carries the request it was given, so the same
    timestamp; and all the HTTP calls of a turn carry the clock value of
    the moment the request was built, however long the attempts and the waits
    between them last. *)
Theorem timestamp_fixed_across_retries :
  (∀ session, timestamp (CopilotChatParticipant.buildMcpRequest config host turn session w)
              = now w)
  ∧ (∀ anyRequest : McpRequest, ∃ new,
       effects (McpService.sendMcpRequest config host net anyRequest w).2 = effects w ++ new
       ∧ Forall (λ b, b = anyRequest) (bodies new)
       ∧ Forall (λ b, timestamp b = timestamp anyRequest) (bodies new))
  ∧ (∃ new,
       effects (worldAfter result) = effects w ++ new
       ∧ Forall (λ b, timestamp b = now w) (bodies new)).
Proof.
  split; [reflexivity |]. split.
  - intros anyRequest.
    destruct (sendMcpRequest_bodies config host net anyRequest w) as (new & Heff & Hall).
    exists new. split; [exact Heff |]. split; [exact Hall |].
    eapply Forall_impl; [exact Hall |]. by intros b ->.
  - destruct handleChatRequest_world as [-> | ->].
    + exists []. split; [by rewrite app_nil_r | constructor].
    + subst sent.
      destruct (sendMcpRequest_bodies config host net mcpRequest w) as (new & Heff & Hall).
      exists new. split; [exact Heff |].
      eapply Forall_impl; [exact Hall |]. by intros b ->.
Qed.

End Orchestrator.

Lemma disabled_passes_through_witness :
  stream (CopilotChatParticipant.handleChatRequest (withEnabled false defaultConfig) someHost
            (λ _, quietly Refused) ∅ someTurn startWorld)
  = [Markdown (disabledText "hi")].
Proof.
  apply (disabled_passes_through (withEnabled false defaultConfig) someHost
           (λ _, quietly Refused) ∅ someTurn startWorld someRequest).
  reflexivity.
Defined.

(** C5 as stated fails: what is written for the prompt hi is not the prompt
    alone but the prompt inside the pass-through text. *)
Lemma disabled_output_is_not_the_bare_prompt :
  stream (CopilotChatParticipant.handleChatRequest (withEnabled false defaultConfig) someHost
            (λ _, quietly Refused) ∅ someTurn startWorld)
  ≠ [Markdown (requestPrompt someTurn)].
Proof. vm_compute. discriminate. Qed.

Lemma failure_falls_back_witness :
  stream (CopilotChatParticipant.handleChatRequest defaultConfig someHost
            (λ _, quietly Refused) ∅ someTurn startWorld)
  = [progressNote;
     Markdown (failureText
                 "Unable to connect to MCP server. Please check your configuration." "hi")].
Proof.
  apply (failure_falls_back defaultConfig someHost (λ _, quietly Refused) ∅ someTurn
           startWorld CONNECTION_ERROR "Network request failed");
    reflexivity.
Defined.

(** C6 as stated fails: the sentence shown is not a function of the kind of
    the error.  Two [SERVER_ERROR]s with different messages are shown with
    different sentences. *)
Lemma failure_sentence_not_fixed :
  ¬ ∃ template : McpErrorType → string,
      ∀ (t : McpErrorType) (m originalPrompt : string),
        CopilotChatParticipant.handleMcpError (McpError t m) originalPrompt
        = [Markdown (failureText (template t) originalPrompt)].
Proof.
  intros [template Hfixed].
  pose proof (Hfixed SERVER_ERROR "HTTP 500: Internal Server Error" "hi") as H500.
  pose proof (Hfixed SERVER_ERROR "HTTP 503: Service Unavailable" "hi") as H503.
  rewrite <- H503 in H500. vm_compute in H500. discriminate H500.
Qed.

Lemma unsuccessful_body_is_failure_witness :
  stream (CopilotChatParticipant.handleChatRequest defaultConfig someHost
            (λ _, quietly (Reply 200 "OK" (Json (unsuccessful None)))) ∅ someTurn startWorld)
  = [progressNote; Markdown (failureText "Error: bad" "hi")].
Proof.
  apply (unsuccessful_body_is_failure defaultConfig someHost
           (λ _, quietly (Reply 200 "OK" (Json (unsuccessful None)))) ∅ someTurn startWorld
           "OK" None);
    (reflexivity || (simpl; lia)).
Defined.

(** ** Classification of what the endpoint and the caller do *)

Lemma makeFetchRequest_cancelled (a : Attempt) :
  cancelledInFlight a = true →
  McpService.makeFetchRequest a = Rejected (McpError TIMEOUT_ERROR "Request timed out").
Proof.
  intros Hcancel. unfold McpService.makeFetchRequest, fetchCall.
  by rewrite Hcancel, orb_true_r.
Qed.

Lemma makeAxiosRequest_429 (timeoutMs : Z) (statusText : string) (body : Body) :
  McpService.makeAxiosRequest timeoutMs (quietly (Reply 429 statusText body))
  = Rejected (McpError RATE_LIMITED "Rate limit exceeded").
Proof. reflexivity. Qed.

Lemma makeFetchRequest_429 (statusText : string) (body : Body) :
  McpService.makeFetchRequest (quietly (Reply 429 statusText body))
  = Rejected (McpError SERVER_ERROR ("HTTP 429: " +:+ statusText)).
Proof. reflexivity. Qed.

(** C2. A reply with status 429 is classified [RATE_LIMITED] under axios,
    whatever the body; under fetch, the default library, [makeFetchRequest]
    classifies every status outside 200..299 as [SERVER_ERROR], 429
    included, and this is what [sendMcpRequest] rejects with. *)
Theorem status_429_under_both_libraries :
  (∀ timeoutMs statusText body,
     McpService.makeAxiosRequest timeoutMs (quietly (Reply 429 statusText body))
     = Rejected (McpError RATE_LIMITED "Rate limit exceeded"))
  ∧ (∀ statusText body,
       McpService.makeFetchRequest (quietly (Reply 429 statusText body))
       = Rejected (McpError SERVER_ERROR ("HTTP 429: " +:+ statusText)))
  ∧ (McpService.sendMcpRequest (withLibrary axios defaultConfig) someHost
       (λ _, tooManyRequests) someRequest startWorld).1
    = Rejected (McpError RATE_LIMITED "Rate limit exceeded")
  ∧ (McpService.sendMcpRequest defaultConfig someHost
       (λ _, tooManyRequests) someRequest startWorld).1
    = Rejected (McpError SERVER_ERROR "HTTP 429: Too Many Requests").
Proof.
  split; [exact makeAxiosRequest_429 |]. split; [exact makeFetchRequest_429 |].
  split; reflexivity.
Qed.

(** C3. An abort that [cancelRequests()] causes is classified
    [TIMEOUT_ERROR] like one the timer causes, and the turn then writes the
    time-out fallback although its token is cancelled; likewise a turn whose
    token is cancelled in flight and whose request fails writes the fallback
    of that failure.  Only a request that succeeds is silenced by the
    cancelled token, after the progress note. *)
Theorem external_cancel_is_reported :
  abortCause cancelledMidFlight = Some ExternalCancel
  ∧ McpService.makeFetchRequest cancelledMidFlight
    = Rejected (McpError TIMEOUT_ERROR "Request timed out")
  ∧ stream (CopilotChatParticipant.handleChatRequest (withRetries 0 defaultConfig) someHost
              (λ _, cancelledMidFlight) ∅ cancelledTurn startWorld)
    = [progressNote;
       Markdown (failureText "Request timed out. The MCP server may be overloaded." "hi")]
  ∧ stream (CopilotChatParticipant.handleChatRequest defaultConfig someHost
              (λ _, quietly Refused) ∅ cancelledTurn startWorld)
    = [progressNote;
       Markdown (failureText
                   "Unable to connect to MCP server. Please check your configuration." "hi")]
  ∧ stream (CopilotChatParticipant.handleChatRequest defaultConfig someHost
              (λ _, quietly (Reply 200 "OK" (Json enhanced))) ∅ cancelledTurn startWorld)
    = [progressNote].
Proof. repeat split; reflexivity. Qed.

(** ** Sample runs *)

Example base64_of_credentials : base64 "u:p" = "dTpw".
Proof. reflexivity. Qed.

Example base64_padding :
  base64 "a" = "YQ==" ∧ base64 "ab" = "YWI=" ∧ base64 "hello world" = "aGVsbG8gd29ybGQ=".
Proof. repeat split; reflexivity. Qed.

Example includes_fetch :
  includes "fetch" "fetch failed" = true ∧ includes "fetch" "socket hang up" = false.
Proof. split; reflexivity. Qed.

(** Three attempts at three moments of the clock, one timestamp. *)
Example three_attempts_one_timestamp :
  map (λ e, match e with
            | Dispatched at_ _ _ _ _ body => Some (at_, timestamp body)
            | Slept _ _ => None
            end)
      (effects (McpService.sendMcpRequest defaultConfig someHost (λ _, quietly Refused)
                  someRequest startWorld).2)
  = [Some (1700000000000, 1700000000000); None;
     Some (1700000001040, 1700000000000); None;
     Some (1700000003080, 1700000000000)].
Proof. reflexivity. Qed.

(** A turn that succeeds: the enhanced prompt is written and the session
    counts one message. *)
Example enhanced_turn :
  let result := CopilotChatParticipant.handleChatRequest defaultConfig someHost
                  (λ _, quietly (Reply 200 "OK" (Json enhanced))) ∅ someTurn startWorld in
  stream result = [progressNote;
                   Markdown ("**Enhanced Prompt:** hi, with context" +:+ nl +:+ nl)]
  ∧ messageCount <$> (sessionsAfter result !! "session-k3j9x0q1z") = Some 1.
Proof. split; reflexivity. Qed.

(** ** More on the retry loop *)

Lemma backoff_bounds (attempt : Z) :
  1 <= attempt → 1000 <= McpService.backoff attempt <= 10000.
Proof.
  intros Hge. unfold McpService.backoff, pow2.
  assert (0 < 2 ^ (attempt - 1)) by (apply Z.pow_pos_nonneg; lia). lia.
Qed.

Section RetryLoopBounds.

Variable config : ExtensionConfig.
Variable host : Host.
Variable net : nat → Attempt.
Variable mcpRequest : McpRequest.

Let r := retries (mcpServer config).

Let next (attempt : Z) (w : World) : World :=
  if attempt + 1 <=? r
  then McpService.delay (McpService.backoff (attempt + 1))
         (McpService.makeHttpRequest config host net mcpRequest w).2
  else (McpService.makeHttpRequest config host net mcpRequest w).2.

(** Whatever the loop throws is the classification of the error of one of
    its attempts, or of the error it started with. *)
Lemma retryLoop_rejection (n : nat) :
  ∀ (attempt : Z) (lastError : option JsError) (w : World) (e : JsError),
    Z.to_nat (r + 1 - attempt) = n →
    (McpService.retryLoop config host net mcpRequest attempt lastError w).1 = Rejected e →
    e = McpService.throwLastError lastError
    ∨ ∃ i error, settles config (net i) = Rejected error ∧ e = McpService.handleError error.
Proof.
  induction n as [| n IH]; intros attempt lastError w e Hn.
  - rewrite retryLoop_done by (subst r; lia). simpl. intros [= <-]. by left.
  - rewrite retryLoop_step by (subst r; lia).
    destruct (settles config (net (calls w))) as [response | error] eqn:Hset; [done |].
    intros Hrun.
    destruct (IH (attempt + 1) (Some error) _ e ltac:(subst r; lia) Hrun) as [-> | Hsome];
      [| exact (or_intror Hsome)].
    right. exists (calls w), error. by split.
Qed.

(** The calls and waits of the loop, whatever the transport does. *)
Lemma retryLoop_bounds (n : nat) :
  ∀ (attempt : Z) (lastError : option JsError) (w : World),
    Z.to_nat (r + 1 - attempt) = n →
    0 <= attempt →
    ∃ new,
      effects (McpService.retryLoop config host net mcpRequest attempt lastError w).2
        = effects w ++ new
      ∧ (n = O → new = [])
      ∧ (length (bodies new) <= n)%nat
      ∧ (n ≠ O → length (bodies new) = S (length (waits new)))
      ∧ Forall (λ ms, 1000 <= ms <= 10000) (waits new).
Proof.
  induction n as [| n IH]; intros attempt lastError w Hn Hpos.
  - rewrite retryLoop_done by (subst r; lia). exists [].
    split; [by rewrite app_nil_r |]. split; [done |]. split; [simpl; lia |].
    split; [done | constructor].
  - rewrite retryLoop_step by (subst r; lia).
    destruct (settles config (net (calls w))) as [response | error].
    + eexists. split; [apply called_effects |]. split; [done |].
      split; [simpl; lia |]. split; [done | constructor].
    + destruct (IH (attempt + 1) (Some error) (next attempt w))
        as (new & Heff & Hnil & Hcalls & Hwaits & Hall); [subst r; lia | lia |].
      subst next r. cbv beta in Heff. rewrite Heff, rested_effects, <- app_assoc.
      eexists. split; [reflexivity |]. split; [done |].
      destruct n as [| m].
      * rewrite (Hnil eq_refl).
        replace (attempt + 1 <=? retries (mcpServer config)) with false
          by (symmetry; apply Z.leb_gt; lia).
        split; [simpl; lia |]. split; [done | constructor].
      * replace (attempt + 1 <=? retries (mcpServer config)) with true
          by (symmetry; apply Z.leb_le; lia).
        specialize (Hwaits ltac:(done)).
        change (length (bodies new) <= S m)%nat in Hcalls.
        split; [simpl; unfold bodies in *; lia |].
        split; [intros _; simpl; unfold bodies, waits in *; simpl; lia |].
        change (Forall (λ ms, 1000 <= ms <= 10000)
                  (McpService.backoff (attempt + 1) :: waits new)).
        constructor; [apply backoff_bounds; lia | exact Hall].
Qed.

End RetryLoopBounds.


Lemma handleError_kinds (error : JsError) :
  (∃ t m, error = McpError t m ∧ McpService.handleError error = error)
  ∨ (∃ m, McpService.handleError error = McpError CONNECTION_ERROR m)
  ∨ (∃ m, McpService.handleError error = McpError SERVER_ERROR m).
Proof.
  unfold McpService.handleError.
  destruct error; simpl; eauto; destruct (includes _ _); eauto.
Qed.

Lemma handleAxiosError_kinds (error : JsError) :
  ∃ t m, McpService.handleAxiosError error = McpError t m
         ∧ t ≠ INVALID_RESPONSE ∧ t ≠ CONFIGURATION_ERROR.
Proof.
  unfold McpService.handleAxiosError.
  repeat (destruct (_ || _) || destruct (bool_decide _)); eauto.
Qed.

Lemma makeFetchRequest_kinds (a : Attempt) (t : McpErrorType) (m : string) :
  McpService.makeFetchRequest a = Rejected (McpError t m) →
  t = SERVER_ERROR ∨ t = TIMEOUT_ERROR.
Proof.
  unfold McpService.makeFetchRequest, fetchCall, McpService.fetchCatch.
  destruct (timedOut a || cancelledInFlight a); simpl; [intros [= <- _]; by right |].
  destruct (wire a) as [status text [response | parseError] | | | reason | name reason]; simpl;
    repeat (destruct (_ && _) || destruct (bool_decide _)); simpl;
    intros [=]; subst; auto.
Qed.

Lemma axiosCall_rejection (validateStatus : Z → bool) (timeoutMs : Z) (a : Attempt)
    (error : JsError) :
  axiosCall validateStatus timeoutMs a = Rejected error → instanceofMcpError error = false.
Proof.
  unfold axiosCall. destruct (timedOut a); [by intros [= <-] |].
  destruct (wire a) as [status text body | | | reason | name reason];
    try destruct (validateStatus status); by intros [= <-].
Qed.

Lemma makeAxiosRequest_kinds (timeoutMs : Z) (a : Attempt) (t : McpErrorType) (m : string) :
  McpService.makeAxiosRequest timeoutMs a = Rejected (McpError t m) →
  t ≠ INVALID_RESPONSE ∧ t ≠ CONFIGURATION_ERROR.
Proof.
  unfold McpService.makeAxiosRequest.
  destruct (axiosCall _ timeoutMs a) as [? | error] eqn:Hcall; [done |].
  destruct (isAxiosError error).
  - destruct (handleAxiosError_kinds error) as (t' & m' & -> & Hne1 & Hne2).
    by intros [= <- <-].
  - intros [= ->]. by apply axiosCall_rejection in Hcall.
Qed.

Lemma settles_kinds (config : ExtensionConfig) (a : Attempt) (t : McpErrorType) (m : string) :
  settles config a = Rejected (McpError t m) →
  t ≠ INVALID_RESPONSE ∧ t ≠ CONFIGURATION_ERROR
  ∧ (library (httpClient config) = fetch → t = SERVER_ERROR ∨ t = TIMEOUT_ERROR).
Proof.
  unfold settles. case_bool_decide as Hlib.
  - intros Hrej. apply makeAxiosRequest_kinds in Hrej as [Hne1 Hne2].
    rewrite Hlib. done.
  - intros Hrej. apply makeFetchRequest_kinds in Hrej.
    split; [by destruct Hrej as [-> | ->] |]. split; [by destruct Hrej as [-> | ->] | done].
Qed.

Section TransportBehaviour.

Variable config : ExtensionConfig.
Variable host : Host.
Variable net : nat → Attempt.
Variable mcpRequest : McpRequest.

Let r := retries (mcpServer config).

(** The loop when the first [j] attempts fail and the next one succeeds. *)
Lemma retryLoop_recovers (response : McpResponse) (j : nat) :
  ∀ (attempt : Z) (lastError : option JsError) (w : World),
    attempt + Z.of_nat j <= r →
    (∀ i, (i < j)%nat → isRejected (settles config (net (calls w + i)%nat)) = true) →
    settles config (net (calls w + j)%nat) = Fulfilled response →
    ∃ new w',
      McpService.retryLoop config host net mcpRequest attempt lastError w
        = (Fulfilled response, w')
      ∧ effects w' = effects w ++ new
      ∧ calls w' = S (calls w + j)%nat
      ∧ map kind new = None :: furtherAttempts (attempt + 2) j.
Proof.
  induction j as [| j IH]; intros attempt lastError w Hle Hfail Hok.
  - rewrite retryLoop_step by (subst r; lia).
    rewrite Nat.add_0_r in Hok. rewrite Hok.
    eexists. eexists. split; [reflexivity |].
    split; [apply called_effects |]. split; [simpl; lia | reflexivity].
  - rewrite retryLoop_step by (subst r; lia).
    pose proof (Hfail O ltac:(lia)) as Hnow. rewrite Nat.add_0_r in Hnow.
    destruct (settles config (net (calls w))) as [? | error]; [done |].
    match goal with
    | |- context [McpService.retryLoop _ _ _ _ _ _ ?w1] =>
        destruct (IH (attempt + 1) (Some error) w1) as (new & w' & Hrun & Heff & Hcalls & Hshape)
    end.
    + subst r. lia.
    + intros i Hi. rewrite rested_calls.
      replace (S (calls w) + i)%nat with (calls w + S i)%nat by lia. apply Hfail. lia.
    + rewrite rested_calls.
      by replace (S (calls w) + j)%nat with (calls w + S j)%nat by lia.
    + rewrite Hrun. rewrite rested_calls in Hcalls.
      rewrite rested_effects, <- app_assoc in Heff.
      eexists. exists w'. split; [reflexivity |]. split; [exact Heff |].
      split; [lia |].
      rewrite map_app, map_cons, Hshape, <- app_comm_cons. cbn [kind]. f_equal.
      replace (attempt + 1 <=? retries (mcpServer config)) with true
        by (symmetry; apply Z.leb_le; subst r; lia).
      cbn [map kind app furtherAttempts]. unfold McpService.backoff, delayBefore, pow2.
      by replace (attempt + 1 + 2) with (attempt + 2 + 1) by lia;
         replace (attempt + 1 - 1) with (attempt + 2 - 2) by lia.
Qed.


(** X2. If the first j attempts fail and the next one is answered with
    success, j being at most the retry count, [sendMcpRequest] returns that
    response as it is, after exactly j + 1 HTTP calls and the j waits of the
    back-off in between. *)
Theorem sendMcpRequest_recovers (response : McpResponse) (j : nat) (w : World) :
  enabled (features config) = true →
  Z.of_nat j <= r →
  (∀ i, (i < j)%nat → isRejected (settles config (net (calls w + i)%nat)) = true) →
  settles config (net (calls w + j)%nat) = Fulfilled response →
  ∃ new w',
    McpService.sendMcpRequest config host net mcpRequest w = (Fulfilled response, w')
    ∧ effects w' = effects w ++ new
    ∧ calls w' = S (calls w + j)%nat
    ∧ map kind new = backoffSchedule j.
Proof.
  intros Hen Hj Hfail Hok. unfold McpService.sendMcpRequest. rewrite Hen. simpl.
  apply (retryLoop_recovers response j 0 None w); [lia | exact Hfail | exact Hok].
Qed.

(** X3. [sendMcpRequest] never rejects with [INVALID_RESPONSE] or
    [CONFIGURATION_ERROR]: an [McpError] it throws is one of the other five
    kinds; under fetch it is never [AUTHENTICATION_ERROR] nor
    [RATE_LIMITED] either, only [SERVER_ERROR], [TIMEOUT_ERROR] or
    [CONNECTION_ERROR]. *)
Theorem sendMcpRequest_kinds_thrown (w : World) (t : McpErrorType) (m : string) :
  (McpService.sendMcpRequest config host net mcpRequest w).1 = Rejected (McpError t m) →
  t ≠ INVALID_RESPONSE ∧ t ≠ CONFIGURATION_ERROR
  ∧ (library (httpClient config) = fetch →
     t = SERVER_ERROR ∨ t = TIMEOUT_ERROR ∨ t = CONNECTION_ERROR).
Proof.
  unfold McpService.sendMcpRequest. destruct (enabled (features config)); simpl; [| done].
  intros Hrun.
  apply (retryLoop_rejection config host net mcpRequest (Z.to_nat (r + 1 - 0))) in Hrun
    as [Hnone | (i & error & Hset & Hcls)]; [done | | reflexivity].
  destruct (handleError_kinds error) as [(t' & m' & -> & Hsame) | [[m' Hconn] | [m' Hserver]]].
  - rewrite Hsame in Hcls. injection Hcls as <- <-.
    apply settles_kinds in Hset as (Hne1 & Hne2 & Hfetch).
    split; [done |]. split; [done |]. intros Hlib. destruct (Hfetch Hlib); auto.
  - rewrite Hconn in Hcls. injection Hcls as -> _. auto.
  - rewrite Hserver in Hcls. injection Hcls as -> _. auto.
Qed.

End TransportBehaviour.


Lemma sendMcpRequest_recovers_witness :
  ∃ new w',
    McpService.sendMcpRequest defaultConfig someHost (secondTime enhanced) someRequest
      startWorld = (Fulfilled enhanced, w')
    ∧ effects w' = effects startWorld ++ new
    ∧ map kind new = [None; Some 1000; None].
Proof.
  destruct (sendMcpRequest_recovers defaultConfig someHost (secondTime enhanced) someRequest
              enhanced 1 startWorld)
    as (new & w' & Hrun & Heff & _ & Hshape).
  - reflexivity.
  - simpl. lia.
  - intros i Hi. replace i with O by lia. reflexivity.
  - reflexivity.
  - exists new, w'. split; [exact Hrun | split; [exact Heff | exact Hshape]].
Defined.

Lemma sendMcpRequest_kinds_thrown_witness :
  (McpService.sendMcpRequest defaultConfig someHost (λ _, quietly Refused) someRequest
     startWorld).1 = Rejected (McpError CONNECTION_ERROR "Network request failed")
  ∧ CONNECTION_ERROR ≠ INVALID_RESPONSE
  ∧ CONNECTION_ERROR ≠ CONFIGURATION_ERROR.
Proof.
  split; [reflexivity |].
  destruct (sendMcpRequest_kinds_thrown defaultConfig someHost (λ _, quietly Refused)
              someRequest startWorld CONNECTION_ERROR "Network request failed")
    as (Hne1 & Hne2 & _); [reflexivity |].
  split; [exact Hne1 | exact Hne2].
Defined.

(** ** Testing the connection *)

Section Connection.

Variable config : ExtensionConfig.
Variable host : Host.
Variable net : nat → Attempt.
Variable w : World.

Let tested := testConnection config host net w.
Let shown := testMcpConnection config host net w.


(** X5. [testConnection] looks only at whether [sendMcpRequest] returns:
    when the first attempt is answered with status 200 and a JSON body, the
    test reports success, with the duration of that attempt as latency,
    whatever the body says, [success: false] included. *)
Theorem testConnection_ignores_body (statusText : string) (response : McpResponse) :
  enabled (features config) = true →
  0 <= retries (mcpServer config) →
  wire (net (calls w)) = Reply 200 statusText (Json response) →
  timedOut (net (calls w)) = false →
  cancelledInFlight (net (calls w)) = false →
  tested.1 = {| connectionSuccess := true;
                connectionMessage := "Connection successful";
                latency := Some (took (net (calls w))) |}.
Proof.
  intros Hen Hr Hwire Htime Hcancel. subst tested.
  unfold testConnection, McpService.sendMcpRequest. rewrite Hen. simpl.
  rewrite retryLoop_step by lia.
  rewrite (settles_ok_json config _ _ _ Hwire Htime Hcancel). simpl.
  do 2 f_equal. lia.
Qed.

(** X6. When [sendMcpRequest] rejects, [testConnection] reports a failure
    whose message is [Connection failed: ] followed by the message of the
    classified error, and [testMcpConnection] puts [Connection failed: ]
    before it once more, so that the user reads the prefix twice. *)
Theorem testConnection_failure_message (error : JsError) :
  (McpService.sendMcpRequest config host net (testRequest host w) w).1 = Rejected error →
  tested.1 = {| connectionSuccess := false;
                connectionMessage :=
                  "Connection failed: " +:+ messageOf (McpService.handleError error);
                latency := None |}
  ∧ shown.1 = ErrorMessage ("❌ Connection failed: Connection failed: "
                              +:+ messageOf (McpService.handleError error)).
Proof.
  intros Hrej. subst tested shown. unfold testMcpConnection, testConnection.
  destruct (McpService.sendMcpRequest config host net (testRequest host w) w) as [o w1].
  simpl in Hrej. subst o.
  assert ((if instanceofMcpError error then error else McpService.handleError error)
          = McpService.handleError error) as ->.
  { unfold McpService.handleError. by destruct (instanceofMcpError error). }
  split; reflexivity.
Qed.

End Connection.


Lemma testConnection_ignores_body_witness :
  (testConnection defaultConfig someHost
     (λ _, quietly (Reply 200 "OK" (Json (unsuccessful None)))) startWorld).1
  = {| connectionSuccess := true;
       connectionMessage := "Connection successful";
       latency := Some 40 |}.
Proof.
  apply (testConnection_ignores_body defaultConfig someHost
           (λ _, quietly (Reply 200 "OK" (Json (unsuccessful None)))) startWorld
           "OK" (unsuccessful None));
    (reflexivity || (simpl; lia)).
Defined.

Lemma testConnection_failure_message_witness :
  (testMcpConnection defaultConfig someHost (λ _, quietly Refused) startWorld).1
  = ErrorMessage "❌ Connection failed: Connection failed: Network request failed".
Proof.
  apply (testConnection_failure_message defaultConfig someHost (λ _, quietly Refused)
           startWorld (McpError CONNECTION_ERROR "Network request failed")).
  reflexivity.
Defined.

(** ** Classification *)

(** X7. [handleError] leaves an [McpError] as it is, turns any other error
    into [CONNECTION_ERROR] when its message contains [fetch] and into
    [SERVER_ERROR] with the same message otherwise, and applied to its own
    result it changes nothing. *)
Theorem handleError_idempotent (error : JsError) :
  McpService.handleError (McpService.handleError error) = McpService.handleError error
  ∧ (instanceofMcpError error = true → McpService.handleError error = error)
  ∧ (instanceofMcpError error = false →
     McpService.handleError error =
       if includes "fetch" (messageOf error)
       then McpError CONNECTION_ERROR "Network request failed"
       else McpError SERVER_ERROR (messageOf error)).
Proof.
  unfold McpService.handleError.
  destruct error; simpl; repeat split; try done; by destruct (includes _ _).
Qed.

Lemma handleError_idempotent_witness :
  McpService.handleError (PlainError "TypeError" "fetch failed")
  = McpError CONNECTION_ERROR "Network request failed".
Proof.
  apply (proj2 (proj2 (handleError_idempotent (PlainError "TypeError" "fetch failed")))).
  reflexivity.
Defined.

(** X8. For a reply whose status is outside 200..299, the two libraries
    give the same kind of error exactly when the status is none of 401, 403
    and 429: fetch always gives [SERVER_ERROR], axios gives
    [AUTHENTICATION_ERROR] for 401 and 403, [RATE_LIMITED] for 429 and
    [SERVER_ERROR] for the rest. *)
Theorem libraries_agree_on_status (timeoutMs status : Z) (statusText : string) (body : Body) :
  ¬ (200 <= status < 300) →
  ∃ viaAxios viaFetch m1 m2,
    McpService.makeAxiosRequest timeoutMs (quietly (Reply status statusText body))
      = Rejected (McpError viaAxios m1)
    ∧ McpService.makeFetchRequest (quietly (Reply status statusText body))
      = Rejected (McpError viaFetch m2)
    ∧ viaFetch = SERVER_ERROR
    ∧ viaAxios = (if bool_decide (status = 401 ∨ status = 403) then AUTHENTICATION_ERROR
                  else if bool_decide (status = 429) then RATE_LIMITED
                  else SERVER_ERROR)
    ∧ (viaAxios = viaFetch ↔ status ≠ 401 ∧ status ≠ 403 ∧ status ≠ 429).
Proof.
  intros Hstatus.
  assert ((200 <=? status) && (status <? 300) = false) as Hok.
  { apply andb_false_iff. destruct (Z.leb_spec 200 status); [right | by left].
    apply Z.ltb_ge. lia. }
  unfold McpService.makeAxiosRequest, McpService.makeFetchRequest, axiosCall, fetchCall,
    McpService.handleAxiosError, McpService.fetchCatch, quietly.
  cbn [timedOut cancelledInFlight wire orb ok responseStatus json isAxiosError
       codeOf responseStatusOf messageOf nameOf].
  rewrite Hok. cbn [negb isAxiosError codeOf responseStatusOf messageOf nameOf].
  destruct (status <? 500);
    cbn [bool_decide decide_rel orb];
    repeat case_bool_decide; try (exfalso; intuition congruence);
    do 4 eexists; (split; [reflexivity |]); (split; [reflexivity |]);
    (split; [reflexivity |]); (split; [reflexivity |]); intuition (congruence || lia).
Qed.

Lemma libraries_agree_on_status_witness :
  ∃ m1 m2,
    McpService.makeAxiosRequest 30000 (quietly (Reply 401 "Unauthorized" (NotJson "")))
      = Rejected (McpError AUTHENTICATION_ERROR m1)
    ∧ McpService.makeFetchRequest (quietly (Reply 401 "Unauthorized" (NotJson "")))
      = Rejected (McpError SERVER_ERROR m2).
Proof.
  destruct (libraries_agree_on_status 30000 401 "Unauthorized" (NotJson ""))
    as (viaAxios & viaFetch & m1 & m2 & Haxios & Hfetch & -> & -> & _); [lia |].
  exists m1, m2. split; [exact Haxios | exact Hfetch].
Defined.

(** ** More on the headers and on the request *)

Section RequestParts.

Variable config : ExtensionConfig.
Variable host : Host.

Let auth := authentication config.
Let headers := McpService.buildHeaders config host.
Let fixed := McpService.fixedHeaders config host.

Lemma fixedHeaders_size : size fixed = 4%nat.
Proof.
  subst fixed. unfold McpService.fixedHeaders.
  rewrite !map_size_insert_None by (by simplify_map_eq). by rewrite map_size_singleton.
Qed.

(** X9. With an authentication type other than [none] and a token that is
    not empty, the built headers are the fixed headers with one entry
    written: the configured header name carries the value for the type, every
    other name keeps the value of the fixed headers, and a fixed header of
    the same name is replaced.  The map has four or five entries. *)
Theorem buildHeaders_adds_only_the_auth_header :
  type auth ≠ none →
  token auth ≠ "" →
  headers !! headerName auth = Some (authValue auth)
  ∧ (∀ k, k ≠ headerName auth → headers !! k = fixed !! k)
  ∧ (4 <= size headers <= 5)%nat.
Proof.
  intros Htype Htok.
  assert (headers = <[headerName auth := authValue auth]> fixed) as ->.
  { subst headers auth fixed. unfold authValue.
    destruct (type (authentication config)) eqn:Ht; [done | | |].
    - by apply buildHeaders_bearer.
    - by apply buildHeaders_api_key.
    - by apply buildHeaders_basic. }
  split; [apply lookup_insert_eq |]. split.
  - intros k Hk. by rewrite lookup_insert_ne.
  - rewrite map_size_insert, fixedHeaders_size.
    destruct (fixed !! headerName auth); simpl; lia.
Qed.

Variable turn : ChatTurn.
Variable session : ChatSession.
Variable w : World.

Let built := CopilotChatParticipant.buildMcpRequest config host turn session w.

(** X10. What the request carries of the editor is gated by the two feature
    flags: with [includeWorkspaceContext] off it has neither workspace root
    nor open files, with [includeActiveFile] off it has neither the active
    file (path, language, content) nor the selection. *)
Theorem buildMcpRequest_respects_flags :
  (includeWorkspaceContext (features config) = false →
     workspaceRoot (context built) = None ∧ openFiles (context built) = None)
  ∧ (includeActiveFile (features config) = false →
       activeFile (context built) = None ∧ selection (context built) = None).
Proof.
  subst built. unfold CopilotChatParticipant.buildMcpRequest. simpl.
  split; intros ->; by destruct (workspaceFolder host), (activeTextEditor host).
Qed.

(** X11. In every built request the prompt is the one of the turn and the
    session id and user id are those of the session; a selection comes only
    with an active file, the open files only with a workspace root; and the
    open files are paths of documents of the host that are not untitled. *)
Theorem buildMcpRequest_shape :
  prompt built = requestPrompt turn
  ∧ sessionId built = id session
  ∧ userId built = sessionUserId session
  ∧ (is_Some (selection (context built)) → is_Some (activeFile (context built)))
  ∧ (is_Some (openFiles (context built)) ↔ is_Some (workspaceRoot (context built)))
  ∧ (∀ files p, openFiles (context built) = Some files → p ∈ files →
       ∃ doc, doc ∈ textDocuments host ∧ isUntitled doc = false ∧ fsPath doc = p).
Proof.
  subst built. unfold CopilotChatParticipant.buildMcpRequest. simpl.
  split; [done |]. split; [done |]. split; [done |].
  destruct (includeWorkspaceContext (features config)), (includeActiveFile (features config)),
    (workspaceFolder host), (activeTextEditor host); simpl;
    (split; [intros [? ?]; (done || eauto) |]);
    (split; [split; intros [? ?]; (done || eauto) |]);
    intros files p [= <-] Hin; try done;
    apply list_elem_of_In, in_map_iff in Hin as (doc & <- & Hdoc);
    apply list_elem_of_In, list_elem_of_filter in Hdoc as [Htitled Hdoc];
    eauto.
Qed.

End RequestParts.

Lemma buildHeaders_adds_only_the_auth_header_witness :
  McpService.buildHeaders (withAuth api_key "k1" defaultConfig) someHost !! "Authorization"
    = Some "k1"
  ∧ McpService.buildHeaders (withAuth api_key "k1" defaultConfig) someHost !! "User-Agent"
    = Some "VSCode-Copilot-MCP-Bridge/1.0.0".
Proof.
  destruct (buildHeaders_adds_only_the_auth_header (withAuth api_key "k1" defaultConfig)
              someHost) as (Hauth & Hrest & _); [done | done |].
  split; [exact Hauth |]. rewrite Hrest by done. reflexivity.
Defined.

Lemma buildMcpRequest_respects_flags_witness :
  context (CopilotChatParticipant.buildMcpRequest (withContextFlags false false defaultConfig)
             busyHost someTurn someSession startWorld)
  = {| workspaceRoot := None; activeFile := None; selection := None; openFiles := None |}.
Proof.
  destruct (buildMcpRequest_respects_flags (withContextFlags false false defaultConfig)
              busyHost someTurn someSession startWorld) as [Hws Hfile].
  destruct (Hws eq_refl) as [H1 H2]. destruct (Hfile eq_refl) as [H3 H4].
  destruct (context _) as [a b c d]. simpl in *. by subst.
Defined.

Lemma buildMcpRequest_shape_witness :
  openFiles (context (CopilotChatParticipant.buildMcpRequest defaultConfig busyHost someTurn
                        someSession startWorld)) = Some ["/work/app/main.ts"]
  ∧ ∃ doc, doc ∈ textDocuments busyHost ∧ isUntitled doc = false
           ∧ fsPath doc = "/work/app/main.ts".
Proof.
  split; [reflexivity |].
  destruct (buildMcpRequest_shape defaultConfig busyHost someTurn someSession startWorld)
    as (_ & _ & _ & _ & _ & Hfiles).
  apply (Hfiles ["/work/app/main.ts"]); [reflexivity | by left].
Defined.

(** ** Rendering a response *)

Section Rendering.

Variable config : ExtensionConfig.
Variable originalPrompt : string.

(** X12. Unless the log level is [debug], the metadata of a response never
    reaches the chat: what [handleMcpResponse] writes or throws is the same
    with and without it. *)
Theorem handleMcpResponse_hides_metadata (mcpResponse : McpResponse) :
  level (logging config) ≠ LogDebug →
  CopilotChatParticipant.handleMcpResponse config mcpResponse originalPrompt
  = CopilotChatParticipant.handleMcpResponse config (withoutMetadata mcpResponse)
      originalPrompt.
Proof.
  intros Hlevel. unfold CopilotChatParticipant.handleMcpResponse, withoutMetadata. simpl.
  destruct (success mcpResponse); [| reflexivity]. simpl.
  destruct (data mcpResponse) as [d |]; [| reflexivity]. simpl.
  rewrite bool_decide_eq_false_2 by done. by destruct (dataMetadata d).
Qed.

(** X13. Every suggestion of a successful response is written, each as a
    bullet of its own and in the order received; the participant drops none
    and sets no cap of its own on their number. *)
Theorem handleMcpResponse_writes_every_suggestion (mcpResponse : McpResponse) (d : McpData)
    (l : list string) :
  success mcpResponse = true →
  data mcpResponse = Some d →
  suggestions d = Some l →
  ∃ written before after,
    CopilotChatParticipant.handleMcpResponse config mcpResponse originalPrompt
      = Fulfilled written
    ∧ written = before ++ map suggestionLine l ++ after
    ∧ (length l <= length written)%nat.
Proof.
  intros Hok Hdata Hsug. unfold CopilotChatParticipant.handleMcpResponse.
  rewrite Hok, Hdata, Hsug. cbn [negb].
  set (shownPrompt := match enhancedPrompt d with Some _ => _ | None => _ end).
  set (shownContext := match additionalContext d with Some _ => _ | None => _ end).
  set (shownMetadata := match dataMetadata d with Some _ => _ | None => _ end).
  destruct l as [| s l].
  - exists (shownPrompt ++ shownContext ++ shownMetadata), (shownPrompt ++ shownContext),
      shownMetadata.
    split; [reflexivity |]. split; [by rewrite <- app_assoc | simpl; lia].
  - exists (shownPrompt ++ shownContext
            ++ (Markdown ("**Suggestions:**" +:+ nl)
                  :: map suggestionLine (s :: l) ++ [Markdown nl]) ++ shownMetadata),
      (shownPrompt ++ shownContext ++ [Markdown ("**Suggestions:**" +:+ nl)]),
      (Markdown nl :: shownMetadata).
    split; [reflexivity |]. split.
    + rewrite <- !app_assoc. do 2 f_equal. cbn [app]. f_equal.
      by rewrite <- app_assoc.
    + rewrite !length_app. cbn [length]. rewrite !length_app, length_map. cbn [length]. lia.
Qed.

(** X14. A successful response with nothing to show writes nothing: when
    the enhanced prompt is missing, empty or equal to the original prompt,
    the additional context is missing or empty, there is no suggestion, and
    the metadata is missing or the level is not [debug], no segment is
    written and no error is raised. *)
Theorem handleMcpResponse_nothing_to_show (mcpResponse : McpResponse) (d : McpData) :
  success mcpResponse = true →
  data mcpResponse = Some d →
  absentOrSame (enhancedPrompt d) originalPrompt →
  additionalContext d = None ∨ additionalContext d = Some "" →
  suggestions d = None ∨ suggestions d = Some [] →
  dataMetadata d = None ∨ level (logging config) ≠ LogDebug →
  CopilotChatParticipant.handleMcpResponse config mcpResponse originalPrompt = Fulfilled [].
Proof.
  intros Hok Hdata Hprompt Hctx Hsug Hmeta.
  unfold CopilotChatParticipant.handleMcpResponse. rewrite Hok, Hdata. simpl.
  assert ((match enhancedPrompt d with
           | Some e =>
               if truthy e && negb (String.eqb e originalPrompt)
               then [Markdown ("**Enhanced Prompt:** " +:+ e +:+ nl +:+ nl)]
               else []
           | None => []
           end) = []) as ->.
  { destruct Hprompt as [-> | [-> | ->]]; [done | done |].
    by rewrite String.eqb_refl, andb_false_r. }
  destruct Hctx as [-> | ->], Hsug as [-> | ->]; simpl;
    (destruct Hmeta as [-> | Hlevel];
     [reflexivity | rewrite bool_decide_eq_false_2 by done; by destruct (dataMetadata d)]).
Qed.

End Rendering.

Lemma handleMcpResponse_hides_metadata_witness :
  CopilotChatParticipant.handleMcpResponse defaultConfig advised "hi"
  = CopilotChatParticipant.handleMcpResponse defaultConfig (withoutMetadata advised) "hi".
Proof. apply (handleMcpResponse_hides_metadata defaultConfig "hi" advised). done. Defined.

Lemma handleMcpResponse_writes_every_suggestion_witness :
  ∃ written before after,
    CopilotChatParticipant.handleMcpResponse defaultConfig advised "hi" = Fulfilled written
    ∧ written = before ++ map suggestionLine
                  ["Write tests"; "Add types"; "Handle errors"; "Profile first"] ++ after.
Proof.
  destruct (handleMcpResponse_writes_every_suggestion defaultConfig "hi" advised
              {| enhancedPrompt := Some "hi";
                 additionalContext := None;
                 suggestions := Some ["Write tests"; "Add types"; "Handle errors";
                                      "Profile first"];
                 dataMetadata := Some "{}" |}
              ["Write tests"; "Add types"; "Handle errors"; "Profile first"])
    as (written & before & after & Hrun & Hshape & _); [reflexivity ..|].
  exists written, before, after. split; [exact Hrun | exact Hshape].
Defined.

Lemma handleMcpResponse_nothing_to_show_witness :
  CopilotChatParticipant.handleMcpResponse defaultConfig
    {| success := true;
       data := Some {| enhancedPrompt := Some "hi"; additionalContext := Some "";
                       suggestions := Some []; dataMetadata := Some "{}" |};
       error_ := None |} "hi"
  = Fulfilled [].
Proof.
  apply (handleMcpResponse_nothing_to_show defaultConfig "hi" _
           {| enhancedPrompt := Some "hi"; additionalContext := Some "";
              suggestions := Some []; dataMetadata := Some "{}" |});
    [reflexivity | reflexivity | by right; right | by right | by right | by right].
Defined.

(** ** Sessions *)

Lemma cleanupSessions_lookup (sessions : gmap string ChatSession) (w : World) (k : string) :
  cleanupSessions sessions w !! k =
    match sessions !! k with
    | Some session =>
        if bool_decide (now w - lastActivity session > maxAge) then None else Some session
    | None => None
    end.
Proof.
  unfold cleanupSessions.
  assert (∀ acc m : gmap string ChatSession,
            ∀ k, map_fold (λ sessionId session (remaining : gmap string ChatSession),
                             if bool_decide (now w - lastActivity session > maxAge)
                             then delete sessionId remaining
                             else remaining) acc m !! k
                 = match m !! k with
                   | Some session =>
                       if bool_decide (now w - lastActivity session > maxAge)
                       then None else acc !! k
                   | None => acc !! k
                   end) as Hfold.
  { intros acc.
    apply (map_fold_weak_ind
             (λ (res : gmap string ChatSession) (m : gmap string ChatSession),
                ∀ k, res !! k = match m !! k with
                                | Some session =>
                                    if bool_decide (now w - lastActivity session > maxAge)
                                    then None else acc !! k
                                | None => acc !! k
                                end)).
    - intros k'. by rewrite lookup_empty.
    - intros i x m' res Hfresh IH k'.
      destruct (decide (i = k')) as [-> | Hne].
      + rewrite lookup_insert_eq. case_bool_decide.
        * apply lookup_delete_eq.
        * rewrite IH, Hfresh. reflexivity.
      + rewrite lookup_insert_ne by done. case_bool_decide.
        * rewrite lookup_delete_ne by done. apply IH.
        * apply IH. }
  rewrite Hfold. destruct (sessions !! k) as [session |] eqn:Hk; [| reflexivity].
  by case_bool_decide.
Qed.

Section Sweep.

Variable sessions : gmap string ChatSession.
Variable w : World.

(** X15. The sweep removes exactly the sessions whose last activity is more
    than 24 hours (86,400,000 ms) before the clock, and keeps every other
    session as it is; a session idle for exactly 24 hours is kept. *)
Theorem cleanupSessions_keeps_recent (k : string) (session : ChatSession) :
  (cleanupSessions sessions w !! k = Some session
   ↔ sessions !! k = Some session ∧ now w - lastActivity session <= 86400000)
  ∧ (sessions !! k = Some session → lastActivity session = now w - 86400000 →
     cleanupSessions sessions w !! k = Some session).
Proof.
  assert (cleanupSessions sessions w !! k = Some session
          ↔ sessions !! k = Some session ∧ now w - lastActivity session <= 86400000) as Hiff.
  { rewrite cleanupSessions_lookup. unfold maxAge.
    destruct (sessions !! k) as [x |]; [| split; [done | by intros [? _]]].
    case_bool_decide; split.
    - done.
    - intros [[= ->] Hle]. lia.
    - intros [= ->]. split; [done | lia].
    - by intros [[= ->] _]. }
  split; [exact Hiff |]. intros Hk Hage. apply Hiff. split; [done | lia].
Qed.

(** X16. The sweep never adds a session: what is left is part of what was
    there and the number of sessions does not grow; sweeping twice at the
    same clock changes nothing more, and a sweep at a later clock leaves no
    session that a sweep at an earlier clock removes. *)
Theorem cleanupSessions_shrinks :
  cleanupSessions sessions w ⊆ sessions
  ∧ (getActiveSessionCount (cleanupSessions sessions w) <= getActiveSessionCount sessions)%nat
  ∧ cleanupSessions (cleanupSessions sessions w) w = cleanupSessions sessions w
  ∧ (∀ w', now w <= now w' → cleanupSessions sessions w' ⊆ cleanupSessions sessions w).
Proof.
  assert (cleanupSessions sessions w ⊆ sessions) as Hsub.
  { apply map_subseteq_spec. intros k x. rewrite cleanupSessions_lookup.
    destruct (sessions !! k); [| done]. by case_bool_decide. }
  split; [exact Hsub |]. split; [by apply map_subseteq_size |]. split.
  - apply map_eq. intros k.
    rewrite (cleanupSessions_lookup (cleanupSessions sessions w)), cleanupSessions_lookup.
    destruct (sessions !! k) as [x |]; [| done].
    case_bool_decide; [done |]. by rewrite bool_decide_eq_false_2.
  - intros w' Hlater. apply map_subseteq_spec. intros k x.
    rewrite !cleanupSessions_lookup.
    destruct (sessions !! k) as [y |]; [| done].
    repeat case_bool_decide; (done || lia).
Qed.

End Sweep.

Lemma cleanupSessions_keeps_recent_witness :
  cleanupSessions twoSessions startWorld !! "session-new" = Some recentSession
  ∧ cleanupSessions twoSessions startWorld !! "session-old" = None.
Proof.
  split.
  - apply (proj1 (cleanupSessions_keeps_recent twoSessions startWorld "session-new"
                    recentSession)).
    split; [reflexivity | simpl; lia].
  - destruct (cleanupSessions twoSessions startWorld !! "session-old") as [x |] eqn:Hx;
      [| reflexivity].
    apply (proj1 (cleanupSessions_keeps_recent twoSessions startWorld "session-old" x))
      in Hx as [Hx Hage].
    assert (twoSessions !! "session-old" = Some staleSession) as Hold by reflexivity.
    rewrite Hold in Hx. injection Hx as <-.
    unfold staleSession, startWorld in Hage. simpl in Hage. lia.
Defined.

Lemma cleanupSessions_shrinks_witness :
  (getActiveSessionCount (cleanupSessions twoSessions startWorld) <= 2)%nat.
Proof.
  apply (proj1 (proj2 (cleanupSessions_shrinks twoSessions startWorld))).
Defined.

Lemma string_app_cancel (p a b : string) : p +:+ a = p +:+ b → a = b.
Proof.
  induction p as [| x p IH]; [done |]. intros Heq.
  change (String x (p +:+ a) = String x (p +:+ b)) in Heq. injection Heq. exact IH.
Qed.

Section SessionBookkeeping.

Variable config : ExtensionConfig.
Variable host : Host.
Variable net : nat → Attempt.
Variable sessions : gmap string ChatSession.
Variable turn : ChatTurn.
Variable w : World.

Let key := sessionKey turn w.
Let session := (CopilotChatParticipant.getOrCreateSession host sessions turn w).1.
Let sessions1 := (CopilotChatParticipant.getOrCreateSession host sessions turn w).2.
Let result := CopilotChatParticipant.handleChatRequest config host net sessions turn w.
Let sent := McpService.sendMcpRequest config host net (turnRequest config host sessions turn w) w.

Lemma getOrCreateSession_resolved :
  sessions1 !! key = Some session
  ∧ (∀ k, k ≠ key → sessions1 !! k = sessions !! k)
  ∧ (∀ k x, sessions !! k = Some x → sessions1 !! k = Some x)
  ∧ (sessions !! key = None →
     session = {| id := key;
                  sessionUserId := CopilotChatParticipant.getCurrentUserId host;
                  startTime := now w;
                  lastActivity := now w;
                  messageCount := 0 |}
     ∧ sessions1 = <[key := session]> sessions)
  ∧ (is_Some (sessions !! key) → sessions1 = sessions).
Proof.
  subst session sessions1 key.
  unfold CopilotChatParticipant.getOrCreateSession, sessionKey.
  set (k0 := if (0 <? historyLength turn)%nat then _ else _).
  destruct (sessions !! k0) as [x |] eqn:Hk; simpl.
  - split; [done |]. split; [done |]. split; [done |]. split; [done | done].
  - split; [apply lookup_insert_eq |]. split; [intros k Hne; by rewrite lookup_insert_ne |].
    split; [| split; [done | by intros [? ?]]].
    intros k x Hx. rewrite lookup_insert_ne; [done |]. intros <-. congruence.
Qed.

Lemma getOrCreateSession_keyed :
  keyedById sessions → id session = key ∧ keyedById sessions1.
Proof.
  intros Hkeyed.
  destruct getOrCreateSession_resolved as (Hhere & Hother & _ & Hnew & Hold).
  destruct (sessions !! key) as [x |] eqn:Hk.
  - rewrite (Hold ltac:(eauto)) in Hhere |- *. split; [by apply Hkeyed | exact Hkeyed].
  - destruct (Hnew eq_refl) as [Hsession Hmap].
    split; [by rewrite Hsession |].
    intros k x. destruct (decide (k = key)) as [-> | Hne].
    + rewrite Hhere. intros [= <-]. by rewrite Hsession.
    + rewrite Hother by done. apply Hkeyed.
Qed.

(** The sessions a turn leaves: those it found, those with the session it
    resolved, or those with that session counted once more. *)
Lemma handleChatRequest_sessions :
  sessionsAfter result = sessions
  ∨ sessionsAfter result = sessions1
  ∨ ∃ mcpResponse written,
      sent.1 = Fulfilled mcpResponse
      ∧ cancelledAfterSend turn = false
      ∧ CopilotChatParticipant.handleMcpResponse config mcpResponse (requestPrompt turn)
        = Fulfilled written
      ∧ stream result = progressNote :: written
      ∧ sessionsAfter result = CopilotChatParticipant.touchSession session sent.2 sessions1.
Proof.
  subst result sent session sessions1.
  unfold CopilotChatParticipant.handleChatRequest, turnRequest.
  destruct (enabled (features config)); simpl; [| by left].
  destruct (CopilotChatParticipant.getOrCreateSession host sessions turn w) as [s s1]. simpl.
  destruct (cancelledBeforeSend turn); [right; by left |].
  destruct (McpService.sendMcpRequest _ _ _ _ _) as [[mcpResponse | error] w1]; simpl;
    [| right; by left].
  destruct (cancelledAfterSend turn); [right; by left |].
  destruct (CopilotChatParticipant.handleMcpResponse _ _ _) as [written | error] eqn:Hshow;
    [| right; by left].
  right. right. exists mcpResponse, written. done.
Qed.

(** X17. The map of sessions holds every session under its own id: this
    is so for the empty map the participant starts with, and a turn and a
    sweep both keep it so. *)
Theorem sessions_stay_keyed :
  keyedById ∅
  ∧ (keyedById sessions → keyedById (sessionsAfter result))
  ∧ (keyedById sessions → keyedById (cleanupSessions sessions w)).
Proof.
  split; [intros k x; by rewrite lookup_empty |]. split.
  - intros Hkeyed. destruct (getOrCreateSession_keyed Hkeyed) as [Hid Hkeyed1].
    destruct handleChatRequest_sessions as [-> | [-> | (r & written & _ & _ & _ & _ & ->)]];
      [done | done |].
    unfold CopilotChatParticipant.touchSession. intros k x.
    destruct (decide (k = id session)) as [-> | Hne].
    + rewrite lookup_insert_eq. by intros [= <-].
    + rewrite lookup_insert_ne by done. apply Hkeyed1.
  - intros Hkeyed k x. rewrite cleanupSessions_lookup.
    destruct (sessions !! k) as [y |] eqn:Hk; [| done].
    case_bool_decide; [done |]. intros [= <-]. by apply Hkeyed.
Qed.

(** X18. A turn never removes a session nor lowers a message count: every
    session present before is present after under the same key, with the
    same id, user and start time, and a message count that is the same or
    one more; and the turn adds at most one session. *)
Theorem handleChatRequest_keeps_sessions :
  keyedById sessions →
  (∀ k x, sessions !! k = Some x →
     ∃ x', sessionsAfter result !! k = Some x'
           ∧ id x' = id x ∧ sessionUserId x' = sessionUserId x ∧ startTime x' = startTime x
           ∧ messageCount x <= messageCount x' <= messageCount x + 1)
  ∧ (size sessions <= size (sessionsAfter result) <= S (size sessions))%nat.
Proof.
  intros Hkeyed. destruct (getOrCreateSession_keyed Hkeyed) as [Hid Hkeyed1].
  destruct getOrCreateSession_resolved as (Hhere & Hother & Hkept & Hnew & Hold).
  assert (size sessions <= size sessions1 <= S (size sessions))%nat as Hsize1.
  { destruct (sessions !! key) as [y |] eqn:Hk.
    - rewrite (Hold ltac:(eauto)). lia.
    - destruct (Hnew eq_refl) as [_ ->]. rewrite map_size_insert_None by done. lia. }
  destruct handleChatRequest_sessions as [-> | [-> | (r & written & _ & _ & _ & _ & ->)]].
  - split; [| lia]. intros k x Hx. exists x. repeat split; (done || lia).
  - split; [| done]. intros k x Hx. exists x. rewrite (Hkept _ _ Hx). repeat split; (done || lia).
  - unfold CopilotChatParticipant.touchSession. rewrite Hid. split.
    + intros k x Hx. destruct (decide (k = key)) as [-> | Hne].
      * rewrite lookup_insert_eq. eexists. split; [reflexivity |]. simpl.
        rewrite (Hkept _ _ Hx) in Hhere. injection Hhere as <-. repeat split; (done || lia).
      * rewrite lookup_insert_ne by done. exists x. rewrite (Hkept _ _ Hx).
        repeat split; (done || lia).
    + rewrite map_size_insert_Some by eauto. done.
Qed.

(** X19. The record of a session changes in a turn only when a response
    was rendered: if a session is not left as it was, then [sendMcpRequest]
    returned, the token was not cancelled, and [handleMcpResponse] wrote the
    response without raising.  A turn that fails or is cancelled counts no
    message. *)
Theorem session_changes_only_on_success (k : string) (x : ChatSession) :
  sessions !! k = Some x →
  sessionsAfter result !! k ≠ Some x →
  ∃ mcpResponse written,
    sent.1 = Fulfilled mcpResponse
    ∧ cancelledAfterSend turn = false
    ∧ CopilotChatParticipant.handleMcpResponse config mcpResponse (requestPrompt turn)
      = Fulfilled written
    ∧ stream result = progressNote :: written.
Proof.
  intros Hx Hchanged.
  destruct getOrCreateSession_resolved as (_ & _ & Hkept & _ & _).
  destruct handleChatRequest_sessions
    as [Heq | [Heq | (r & written & Hsent & Hcan & Hshow & Hstream & _)]].
  - rewrite Heq in Hchanged. done.
  - rewrite Heq, (Hkept _ _ Hx) in Hchanged. done.
  - exists r, written. done.
Qed.

(** X20. A turn whose response is rendered counts exactly one message on
    the session it resolved, and sets its last activity to the clock at the
    end of the request; a session created by the turn ends with a count of
    1; every other session is left as it was. *)
Theorem rendered_turn_counts_one_message (mcpResponse : McpResponse) (written : list Segment) :
  keyedById sessions →
  enabled (features config) = true →
  cancelledBeforeSend turn = false →
  cancelledAfterSend turn = false →
  sent.1 = Fulfilled mcpResponse →
  CopilotChatParticipant.handleMcpResponse config mcpResponse (requestPrompt turn)
    = Fulfilled written →
  sessionsAfter result !! key
    = Some {| id := key;
              sessionUserId := sessionUserId session;
              startTime := startTime session;
              lastActivity := now sent.2;
              messageCount := messageCount session + 1 |}
  ∧ (∀ k, k ≠ key → sessionsAfter result !! k = sessions !! k)
  ∧ (sessions !! key = None → messageCount session = 0)
  ∧ (∀ x, sessions !! key = Some x → session = x).
Proof.
  intros Hkeyed Hen Hbefore Hafter Hsent Hshow.
  destruct (getOrCreateSession_keyed Hkeyed) as [Hid _].
  destruct getOrCreateSession_resolved as (Hhere & Hother & Hkept & Hnew & _).
  assert (sessionsAfter result
          = CopilotChatParticipant.touchSession session sent.2 sessions1) as ->.
  { subst result. rewrite handleChatRequest_enabled by done. cbv zeta.
    subst sent session sessions1.
    destruct (McpService.sendMcpRequest _ _ _ _ _) as [o w1]. simpl in Hsent. subst o.
    rewrite Hafter, Hshow. reflexivity. }
  unfold CopilotChatParticipant.touchSession. rewrite Hid.
  split; [apply lookup_insert_eq |]. split.
  - intros k Hne. rewrite lookup_insert_ne by done. by apply Hother.
  - split.
    + intros Hnone. destruct (Hnew Hnone) as [-> _]. reflexivity.
    + intros x Hx. rewrite (Hkept _ _ Hx) in Hhere. by injection Hhere.
Qed.

End SessionBookkeeping.

(** X21. In a conversation that has history the session of a turn is named
    after the clock, [session-] followed by the time in milliseconds: two
    such turns at different clock readings never resolve the same session,
    so each session of such a conversation serves the turns of one
    millisecond only. *)
Theorem sessions_with_history_follow_the_clock (host : Host)
    (sessions1 sessions2 : gmap string ChatSession) (turn1 turn2 : ChatTurn) (w1 w2 : World) :
  keyedById sessions1 →
  keyedById sessions2 →
  (0 < historyLength turn1)%nat →
  (0 < historyLength turn2)%nat →
  id (CopilotChatParticipant.getOrCreateSession host sessions1 turn1 w1).1
    = "session-" +:+ numberToString (now w1)
  ∧ (now w1 ≠ now w2 →
     id (CopilotChatParticipant.getOrCreateSession host sessions1 turn1 w1).1
     ≠ id (CopilotChatParticipant.getOrCreateSession host sessions2 turn2 w2).1).
Proof.
  intros Hkeyed1 Hkeyed2 Hhist1 Hhist2.
  destruct (getOrCreateSession_keyed host sessions1 turn1 w1 Hkeyed1) as [Hid1 _].
  destruct (getOrCreateSession_keyed host sessions2 turn2 w2 Hkeyed2) as [Hid2 _].
  rewrite Hid1, Hid2. unfold sessionKey.
  apply Nat.ltb_lt in Hhist1, Hhist2. rewrite Hhist1, Hhist2.
  split; [reflexivity |]. intros Hclock Heq. apply Hclock.
  apply string_app_cancel in Heq. unfold numberToString in Heq.
  by apply (inj pretty) in Heq.
Qed.

Lemma twoSessions_keyed : keyedById twoSessions.
Proof.
  intros k x. unfold twoSessions.
  destruct (decide (k = "session-old")) as [-> | Hold].
  - rewrite lookup_insert_eq. by intros [= <-].
  - rewrite lookup_insert_ne by done.
    destruct (decide (k = "session-new")) as [-> | Hnew].
    + rewrite lookup_singleton_eq. by intros [= <-].
    + by rewrite lookup_singleton_ne.
Qed.

Lemma sessions_stay_keyed_witness :
  keyedById (sessionsAfter (CopilotChatParticipant.handleChatRequest defaultConfig someHost
                              (λ _, quietly (Reply 200 "OK" (Json enhanced)))
                              twoSessions someTurn startWorld)).
Proof.
  apply (sessions_stay_keyed defaultConfig someHost
           (λ _, quietly (Reply 200 "OK" (Json enhanced))) twoSessions someTurn startWorld).
  exact twoSessions_keyed.
Defined.

Lemma handleChatRequest_keeps_sessions_witness :
  ∃ x', sessionsAfter (CopilotChatParticipant.handleChatRequest defaultConfig someHost
                         (λ _, quietly (Reply 200 "OK" (Json enhanced)))
                         twoSessions someTurn startWorld) !! "session-new" = Some x'
        ∧ 2 <= messageCount x'.
Proof.
  destruct (handleChatRequest_keeps_sessions defaultConfig someHost
              (λ _, quietly (Reply 200 "OK" (Json enhanced))) twoSessions someTurn startWorld
              twoSessions_keyed) as [Hkeeps _].
  destruct (Hkeeps "session-new" recentSession eq_refl) as (x' & Hx' & _ & _ & _ & Hcount & _).
  exists x'. split; [exact Hx' | exact Hcount].
Defined.

Lemma session_changes_only_on_success_witness :
  ∃ mcpResponse written,
    (McpService.sendMcpRequest defaultConfig someHost
       (λ _, quietly (Reply 200 "OK" (Json enhanced)))
       (turnRequest defaultConfig someHost {["session-k3j9x0q1z" := knownSession]} someTurn
          startWorld) startWorld).1 = Fulfilled mcpResponse
    ∧ CopilotChatParticipant.handleMcpResponse defaultConfig mcpResponse "hi"
      = Fulfilled written.
Proof.
  destruct (session_changes_only_on_success defaultConfig someHost
              (λ _, quietly (Reply 200 "OK" (Json enhanced)))
              {["session-k3j9x0q1z" := knownSession]} someTurn startWorld
              "session-k3j9x0q1z" knownSession)
    as (r & written & Hsent & _ & Hshow & _).
  - reflexivity.
  - intros Hsame. vm_compute in Hsame. discriminate Hsame.
  - exists r, written. split; [exact Hsent | exact Hshow].
Defined.

Lemma rendered_turn_counts_one_message_witness :
  messageCount <$> (sessionsAfter (CopilotChatParticipant.handleChatRequest defaultConfig
                                     someHost (λ _, quietly (Reply 200 "OK" (Json enhanced)))
                                     ∅ someTurn startWorld) !! "session-k3j9x0q1z")
  = Some 1.
Proof.
  destruct (rendered_turn_counts_one_message defaultConfig someHost
              (λ _, quietly (Reply 200 "OK" (Json enhanced))) ∅ someTurn startWorld
              enhanced [Markdown ("**Enhanced Prompt:** hi, with context" +:+ nl +:+ nl)])
    as (Hcounted & _).
  - intros k x. by rewrite lookup_empty.
  - reflexivity.
  - reflexivity.
  - reflexivity.
  - reflexivity.
  - reflexivity.
  - change (sessionKey someTurn startWorld) with "session-k3j9x0q1z" in Hcounted.
    rewrite Hcounted. reflexivity.
Defined.

Lemma sessions_with_history_follow_the_clock_witness :
  id (CopilotChatParticipant.getOrCreateSession someHost ∅ laterTurn startWorld).1
  ≠ id (CopilotChatParticipant.getOrCreateSession someHost ∅ laterTurn laterWorld).1.
Proof.
  assert (keyedById (∅ : gmap string ChatSession)) as Hempty
    by (intros k x; by rewrite lookup_empty).
  apply (sessions_with_history_follow_the_clock someHost ∅ ∅ laterTurn laterTurn
           startWorld laterWorld Hempty Hempty); simpl; lia.
Defined.

(** ** The logger *)

Section LoggerProperties.

Variable isoNow : string.
Variable st : ExtensionLogger.LoggerState.

Let current := level (ExtensionLogger.loggerConfig st).

Lemma shouldLog_table :
  ExtensionLogger.shouldLog st LogError = true
  ∧ (ExtensionLogger.shouldLog st LogWarn = true ↔ current ≠ LogError)
  ∧ (ExtensionLogger.shouldLog st LogInfo = true ↔ current = LogDebug ∨ current = LogInfo)
  ∧ (ExtensionLogger.shouldLog st LogDebug = true ↔ current = LogDebug).
Proof.
  subst current. unfold ExtensionLogger.shouldLog.
  destruct (level (ExtensionLogger.loggerConfig st)); vm_compute;
    intuition (congruence || discriminate).
Qed.

(** X22. The level is a threshold on severity: [error] always appends
    exactly one line to the output channel, [warn] is dropped only at level
    [error], [info] is written only at levels [debug] and [info], and
    [debug] only at level [debug]; a call that is dropped leaves the logger
    as it was. *)
Theorem logger_level_is_a_threshold (message : string)
    (thrown : option (string * option string)) (args : option string) :
  (∃ line, ExtensionLogger.outputChannel (ExtensionLogger.error isoNow message thrown args st)
           = ExtensionLogger.outputChannel st ++ [line])
  ∧ (current = LogError → ExtensionLogger.warn isoNow message args st = st)
  ∧ (current ≠ LogError →
       length (ExtensionLogger.outputChannel (ExtensionLogger.warn isoNow message args st))
       = S (length (ExtensionLogger.outputChannel st)))
  ∧ (current = LogWarn ∨ current = LogError →
       ExtensionLogger.info isoNow message args st = st)
  ∧ (current = LogDebug ∨ current = LogInfo →
       length (ExtensionLogger.outputChannel (ExtensionLogger.info isoNow message args st))
       = S (length (ExtensionLogger.outputChannel st)))
  ∧ (current ≠ LogDebug → ExtensionLogger.debug isoNow message args st = st).
Proof.
  destruct shouldLog_table as (Herror & Hwarn & Hinfo & Hdebug).
  unfold ExtensionLogger.error, ExtensionLogger.warn, ExtensionLogger.info,
    ExtensionLogger.debug.
  rewrite Herror. split; [eexists; reflexivity |].
  destruct (ExtensionLogger.shouldLog st LogWarn) eqn:Hw,
           (ExtensionLogger.shouldLog st LogInfo) eqn:Hi,
           (ExtensionLogger.shouldLog st LogDebug) eqn:Hd;
    unfold ExtensionLogger.writeLog; cbn [ExtensionLogger.outputChannel];
    rewrite ?length_app; cbn [length];
    repeat split; intros; try done; try lia; exfalso; intuition congruence.
Qed.

(** X23. At every level other than [debug], request and response payloads,
    telemetry and stack traces never reach the log: [logMcpCommunication]
    and [logTelemetry] leave the logger as it was, even with telemetry
    enabled, [logPerformance] writes no more than its one [info] line,
    [error] writes the same line with and without a stack, and nothing is
    echoed to the console. *)
Theorem logger_keeps_payloads_for_debug (direction data telemetryData operation metadata : string)
    (duration : option Z) (elapsed : Z) (message errorMessage stack : string)
    (args : option string) :
  current ≠ LogDebug →
  ExtensionLogger.logMcpCommunication isoNow direction data duration st = st
  ∧ ExtensionLogger.logTelemetry isoNow telemetryData st = st
  ∧ ExtensionLogger.logPerformance isoNow operation elapsed metadata telemetryData st
    = ExtensionLogger.info isoNow
        ("Performance: " +:+ operation +:+ " completed in " +:+ numberToString elapsed +:+ "ms")
        (Some metadata) st
  ∧ ExtensionLogger.error isoNow message (Some (errorMessage, Some stack)) args st
    = ExtensionLogger.error isoNow message (Some (errorMessage, None)) args st
  ∧ ExtensionLogger.console
      (ExtensionLogger.error isoNow message (Some (errorMessage, Some stack)) args st)
    = ExtensionLogger.console st.
Proof.
  intros Hlevel. destruct shouldLog_table as (Herror & _ & _ & Hdebug).
  assert (ExtensionLogger.shouldLog st LogDebug = false) as Hno.
  { destruct (ExtensionLogger.shouldLog st LogDebug); [| done]. by destruct Hlevel, Hdebug; auto. }
  subst current.
  split; [| split; [| split; [| split]]].
  - unfold ExtensionLogger.logMcpCommunication. by rewrite bool_decide_eq_false_2.
  - unfold ExtensionLogger.logTelemetry, ExtensionLogger.debug. rewrite Hno.
    by destruct (enableTelemetry _).
  - unfold ExtensionLogger.logPerformance.
    set (st1 := ExtensionLogger.info _ _ _ _).
    assert (ExtensionLogger.loggerConfig st1 = ExtensionLogger.loggerConfig st) as Hcfg.
    { subst st1. unfold ExtensionLogger.info. by destruct (ExtensionLogger.shouldLog st LogInfo). }
    destruct (enableTelemetry (ExtensionLogger.loggerConfig st1)); [| reflexivity].
    unfold ExtensionLogger.logTelemetry, ExtensionLogger.debug, ExtensionLogger.shouldLog.
    rewrite Hcfg. fold (ExtensionLogger.shouldLog st LogDebug). rewrite Hno.
    by destruct (enableTelemetry _).
  - unfold ExtensionLogger.error. rewrite Herror.
    rewrite bool_decide_eq_false_2 by done. by rewrite andb_false_r.
  - unfold ExtensionLogger.error. rewrite Herror. unfold ExtensionLogger.writeLog. simpl.
    by rewrite bool_decide_eq_false_2.
Qed.

End LoggerProperties.

Lemma logger_level_is_a_threshold_witness :
  ExtensionLogger.debug "2026-01-01T00:00:00.000Z" "MCP request attempt 1" None
    (freshLogger LogInfo) = freshLogger LogInfo
  ∧ ExtensionLogger.info "2026-01-01T00:00:00.000Z" "Processing chat request" None
      (freshLogger LogError) = freshLogger LogError.
Proof.
  pose proof (logger_level_is_a_threshold "2026-01-01T00:00:00.000Z" (freshLogger LogInfo)
                "MCP request attempt 1" None None) as (_ & _ & _ & _ & _ & Hdebug).
  pose proof (logger_level_is_a_threshold "2026-01-01T00:00:00.000Z" (freshLogger LogError)
                "Processing chat request" None None) as (_ & _ & _ & Hinfo & _).
  split; [by apply Hdebug | apply Hinfo; by right].
Defined.

Lemma logger_keeps_payloads_for_debug_witness :
  ExtensionLogger.logMcpCommunication "2026-01-01T00:00:00.000Z" "REQUEST"
    "{prompt: secret}" None (freshLogger LogInfo) = freshLogger LogInfo
  ∧ ExtensionLogger.logTelemetry "2026-01-01T00:00:00.000Z" "{eventName: performance}"
      (freshLogger LogInfo) = freshLogger LogInfo.
Proof.
  destruct (logger_keeps_payloads_for_debug "2026-01-01T00:00:00.000Z" (freshLogger LogInfo)
              "REQUEST" "{prompt: secret}" "{eventName: performance}" "mcp-request" "{}"
              None 12 "failed" "boom" "at f" None)
    as (Hcomm & Htele & _); [done |].
  split; [exact Hcomm | exact Htele].
Defined.

(** ** Validation of the configuration *)

Lemma truthy_spec (s : string) : truthy s = true ↔ s ≠ "".
Proof. destruct s; simpl; split; (done || congruence). Qed.

Section ValidationProperties.

Variable urlProtocol : string → option string.
Variable config : ExtensionConfig.

Let validation := ConfigurationManager.validateConfig urlProtocol config.

(** The four checks of [validateConfig], each as the condition under which
    it adds its message. *)
Lemma validateConfig_checks :
  ConfigurationManager.isValid validation =
    negb (negb (truthy (endpoint (mcpServer config)))
          || negb (ConfigurationManager.isValidUrl urlProtocol (endpoint (mcpServer config))))
    && negb ((timeout (mcpServer config) <? 1000) || (timeout (mcpServer config) >? 120000))
    && negb (bool_decide (type (authentication config) ≠ none)
             && negb (truthy (token (authentication config))))
    && negb ((retries (mcpServer config) <? 0) || (retries (mcpServer config) >? 5))
  ∧ (length (ConfigurationManager.errors validation) <= 4)%nat
  ∧ (ConfigurationManager.isValid validation = true
     ↔ ConfigurationManager.errors validation = []).
Proof.
  subst validation. unfold ConfigurationManager.validateConfig. cbv zeta.
  destruct (truthy (endpoint (mcpServer config)));
    destruct (ConfigurationManager.isValidUrl urlProtocol (endpoint (mcpServer config)));
    destruct (timeout (mcpServer config) <? 1000);
    destruct (timeout (mcpServer config) >? 120000);
    destruct (bool_decide (type (authentication config) ≠ none));
    destruct (truthy (token (authentication config)));
    destruct (retries (mcpServer config) <? 0);
    destruct (retries (mcpServer config) >? 5);
    cbn [negb orb andb app length ConfigurationManager.isValid ConfigurationManager.errors];
    (split; [reflexivity | split; [lia | split; (done || discriminate)]]).
Qed.

(** X24. [validateConfig] accepts a configuration exactly when the endpoint
    is not empty and parses as an http or https URL, the timeout is between
    1000 and 120000 ms, the token is not empty unless the type is [none],
    and the retry count is between 0 and 5; it reports at most four
    messages, and none exactly when it accepts. *)
Theorem validateConfig_accepts_exactly :
  (ConfigurationManager.isValid validation = true
   ↔ endpoint (mcpServer config) ≠ ""
     ∧ ConfigurationManager.isValidUrl urlProtocol (endpoint (mcpServer config)) = true
     ∧ 1000 <= timeout (mcpServer config) <= 120000
     ∧ (type (authentication config) = none ∨ token (authentication config) ≠ "")
     ∧ 0 <= retries (mcpServer config) <= 5)
  ∧ (length (ConfigurationManager.errors validation) <= 4)%nat
  ∧ (ConfigurationManager.isValid validation = true
     ↔ ConfigurationManager.errors validation = []).
Proof.
  destruct validateConfig_checks as (Hvalid & Hlen & Hnone).
  split; [| split; [exact Hlen | exact Hnone]].
  rewrite Hvalid.
  pose proof (truthy_spec (endpoint (mcpServer config))) as He.
  pose proof (truthy_spec (token (authentication config))) as Htok.
  destruct (truthy (endpoint (mcpServer config)));
    destruct (ConfigurationManager.isValidUrl urlProtocol (endpoint (mcpServer config)));
    destruct (Z.ltb_spec (timeout (mcpServer config)) 1000);
    destruct (Z.gtb_spec (timeout (mcpServer config)) 120000);
    case_bool_decide;
    destruct (truthy (token (authentication config)));
    destruct (Z.ltb_spec (retries (mcpServer config)) 0);
    destruct (Z.gtb_spec (retries (mcpServer config)) 5);
    cbn [negb orb andb];
    intuition (try lia; try congruence).
Qed.

(** X25. A configuration that [validateConfig] accepts is safe for the
    transport client: every rejection of [sendMcpRequest] is an [McpError],
    one request makes at most six HTTP calls, and when the type is not
    [none] every built request carries the authentication header. *)
Theorem validated_config_is_safe (host : Host) (net : nat → Attempt)
    (mcpRequest : McpRequest) (w : World) :
  ConfigurationManager.isValid validation = true →
  (∀ e, (McpService.sendMcpRequest config host net mcpRequest w).1 = Rejected e →
        ∃ t m, e = McpError t m)
  ∧ (∃ new, effects (McpService.sendMcpRequest config host net mcpRequest w).2
            = effects w ++ new ∧ (length (bodies new) <= 6)%nat)
  ∧ (type (authentication config) ≠ none →
     McpService.buildHeaders config host !! headerName (authentication config)
     = Some (authValue (authentication config))).
Proof.
  intros Hvalid. destruct validateConfig_checks as (Hchecks & _).
  rewrite Hchecks, !andb_true_iff, !negb_true_iff, !orb_false_iff in Hvalid.
  destruct Hvalid as (((_ & _) & Hauth) & Hr1 & Hr2).
  rewrite Z.gtb_ltb in Hr2. apply Z.ltb_ge in Hr1, Hr2.
  split; [| split].
  - intros e. by apply sendMcpRequest_classified.
  - destruct (sendMcpRequest_bodies config host net mcpRequest w) as (new & Heff & _).
    unfold McpService.sendMcpRequest in *. destruct (enabled (features config)); simpl in *.
    + destruct (retryLoop_bounds config host net mcpRequest
                  (Z.to_nat (retries (mcpServer config) + 1)) 0 None w)
        as (new' & Heff' & _ & Hcalls & _); [f_equal; lia | lia |].
      exists new'. split; [exact Heff' | lia].
    + exists []. split; [by rewrite app_nil_r | simpl; lia].
  - intros Htype. apply andb_false_iff in Hauth as [Hnone | Htok].
    + by apply bool_decide_eq_false in Hnone.
    + apply negb_false_iff, truthy_spec in Htok. unfold authValue.
      destruct (type (authentication config)) eqn:Ht; [done | | |].
      * rewrite buildHeaders_bearer by done. apply lookup_insert_eq.
      * rewrite buildHeaders_api_key by done. apply lookup_insert_eq.
      * rewrite buildHeaders_basic by done. apply lookup_insert_eq.
Qed.

End ValidationProperties.

Lemma validateConfig_accepts_exactly_witness :
  ConfigurationManager.isValid (ConfigurationManager.validateConfig sampleUrlProtocol defaultConfig)
    = true
  ∧ ConfigurationManager.errors
      (ConfigurationManager.validateConfig sampleUrlProtocol (withRetries (-1) defaultConfig))
    = ["MCP server retries must be between 0 and 5"].
Proof.
  split; [| reflexivity].
  apply (proj1 (validateConfig_accepts_exactly sampleUrlProtocol defaultConfig)).
  repeat split; (done || (simpl; lia) || by left).
Defined.

Lemma validated_config_is_safe_witness :
  McpService.buildHeaders securedConfig someHost !! "Authorization" = Some "Bearer abc".
Proof.
  destruct (validated_config_is_safe sampleUrlProtocol securedConfig someHost
              (λ _, quietly Refused) someRequest startWorld) as (_ & _ & Hauth);
    [reflexivity |].
  by apply Hauth.
Defined.

(** ** A turn cancelled before its request *)

(** X26. A turn whose token is already cancelled when the request is built
    sends nothing: no HTTP call is made and the clock does not move, only
    the progress note is written, and the session the turn resolved stays in
    the map with its message count unchanged. *)
Theorem cancelled_before_send_makes_no_call (config : ExtensionConfig) (host : Host)
    (net : nat → Attempt) (sessions : gmap string ChatSession) (turn : ChatTurn) (w : World) :
  enabled (features config) = true →
  cancelledBeforeSend turn = true →
  let result := CopilotChatParticipant.handleChatRequest config host net sessions turn w in
  worldAfter result = w
  ∧ stream result = [progressNote]
  ∧ sessionsAfter result = (CopilotChatParticipant.getOrCreateSession host sessions turn w).2
  ∧ sessionsAfter result !! sessionKey turn w
    = Some (CopilotChatParticipant.getOrCreateSession host sessions turn w).1.
Proof.
  intros Hen Hcancel result.
  destruct (getOrCreateSession_resolved host sessions turn w) as (Hhere & _).
  subst result. unfold CopilotChatParticipant.handleChatRequest. rewrite Hen, Hcancel. simpl.
  destruct (CopilotChatParticipant.getOrCreateSession host sessions turn w) as [s s1].
  simpl in *. done.
Qed.

Lemma cancelled_before_send_makes_no_call_witness :
  worldAfter (CopilotChatParticipant.handleChatRequest defaultConfig someHost
                (λ _, quietly Refused) ∅ abandonedTurn startWorld) = startWorld.
Proof.
  apply (cancelled_before_send_makes_no_call defaultConfig someHost (λ _, quietly Refused)
           ∅ abandonedTurn startWorld); reflexivity.
Defined.

(** ** The sample server *)


